(** * Account form actions: profile update, password change, withdrawal

    A shallow embedding of the three server actions [updateProfile],
    [updatePassword] and [withdrawUser] and of the two zod schemas they
    validate with, followed by the properties of the specification.

    Conventions.
    - An [async] function is a computation of the monad [Async]: it reads and
      changes a [Runtime] (the datastore, the session, the call log) and
      completes normally or by throwing. [await]s are sequential binds.
    - Every call to a collaborator (datastore, session, hashing, cache
      invalidation, console) is appended to the [log] of the runtime, so that
      "is never invoked" and "only after" are statements about that log.
    - zod is embedded with the parsing rules of zod 3, the version whose API
      the schemas are written in ([required_error], [ZodIssueCode.custom],
      [error.flatten()]): a failed string check makes the value dirty and
      parsing goes on, a value of the wrong type aborts, and a refinement of
      an object runs unless the object was aborted.
    - A JavaScript string is a [string]; its [length] is [String.length].
      [String.prototype.trim] and [String.prototype.toLowerCase] are not
      defined here but imported, with what they do to ASCII strings. *)

From Stdlib Require Import String Ascii List ZArith Bool Arith Lia.
Import ListNotations.
Open Scope string_scope.
Open Scope nat_scope.
Open Scope list_scope.

Set Implicit Arguments.

(* ================================================================== *)
(** * JavaScript values and built-ins *)
(* ================================================================== *)

Module JS.

(** The values a form field takes once read: [formData.get] yields a string,
    a [File] (an object) or [null]; [?.toString()] may yield [undefined]. *)
Inductive value :=
| undefined
| null
| str (s : string)
| object.

(** [typeof]-like tag zod reports in "Expected string, received ...". *)
Definition parsedType (v : value) : string :=
  match v with
  | undefined => "undefined"
  | null => "null"
  | str _ => "string"
  | object => "object"
  end.

(** Truthiness of a string: only the empty string is falsy. *)
Definition truthy_string (s : string) : bool :=
  match s with EmptyString => false | String _ _ => true end.

(** Truthiness of [string | null | undefined]. *)
Definition truthy_opt_string (o : option string) : bool :=
  match o with None => false | Some s => truthy_string s end.

(** Truthiness of [number | undefined]: [undefined] and [0] are falsy. *)
Definition truthy_opt_number (o : option Z) : bool :=
  match o with None => false | Some n => negb (n =? 0)%Z end.

(** [String.prototype.trim] and [String.prototype.toLowerCase] are imports of
    the development (see [Imports]): they work on the whole of Unicode. What
    follows is what they do to a string of ASCII characters, which the
    standard fixes with no table: [trim] removes the white space and line
    terminators below 128 (tab, line feed, vertical tab, form feed, carriage
    return, space) at both ends, [toLowerCase] maps A-Z to a-z. *)
Definition isASCII_char (c : ascii) : bool := nat_of_ascii c <? 128.

Fixpoint isASCII (s : string) : bool :=
  match s with
  | EmptyString => true
  | String c r => isASCII_char c && isASCII r
  end.

Definition isWhiteSpaceASCII (c : ascii) : bool :=
  let n := nat_of_ascii c in
  ((9 <=? n) && (n <=? 13)) || (n =? 32).

Fixpoint trimStartASCII (s : string) : string :=
  match s with
  | EmptyString => EmptyString
  | String c r => if isWhiteSpaceASCII c then trimStartASCII r else s
  end.

(** A character is dropped at the end when it is white space and everything
    after it was dropped. *)
Fixpoint trimEndASCII (s : string) : string :=
  match s with
  | EmptyString => EmptyString
  | String c r =>
      match trimEndASCII r with
      | EmptyString => if isWhiteSpaceASCII c then EmptyString else String c EmptyString
      | r' => String c r'
      end
  end.

Definition trimASCII (s : string) : string := trimEndASCII (trimStartASCII s).

Definition toLowerCaseASCII_char (c : ascii) : ascii :=
  let n := nat_of_ascii c in
  if (65 <=? n) && (n <=? 90) then ascii_of_nat (n + 32) else c.

Fixpoint toLowerCaseASCII (s : string) : string :=
  match s with
  | EmptyString => EmptyString
  | String c r => String (toLowerCaseASCII_char c) (toLowerCaseASCII r)
  end.

(** [a === b] / [a !== b] between a string and [string | null | undefined]. *)
Definition strict_eq_opt (a : string) (b : option string) : bool :=
  match b with None => false | Some b' => String.eqb a b' end.

End JS.

(* ================================================================== *)
(** * Form data *)
(* ================================================================== *)

(** [FormDataEntryValue = string | File]. *)
Inductive FormDataEntryValue :=
| EntryString (s : string)
| EntryFile (name : string).

(** A [FormData] is a list of named entries; a name may occur more than once. *)
Definition FormData := list (string * FormDataEntryValue).

(** [formData.get(name)]: the first entry of that name, or [null]. *)
Fixpoint FormData_get (formData : FormData) (name : string) : option FormDataEntryValue :=
  match formData with
  | [] => None
  | (k, v) :: rest => if String.eqb k name then Some v else FormData_get rest name
  end.

(** The entry as the JavaScript value handed to a schema. *)
Definition entry_value (e : option FormDataEntryValue) : JS.value :=
  match e with
  | None => JS.null
  | Some (EntryString s) => JS.str s
  | Some (EntryFile _) => JS.object
  end.

(** [formData.get(name)?.toString()]: [undefined] for a missing entry. *)
Definition entry_toString (e : option FormDataEntryValue) : option string :=
  match e with
  | None => None
  | Some (EntryString s) => Some s
  | Some (EntryFile _) => Some "[object File]"
  end.

(** [x || ''] for [x : string | undefined]. *)
Definition or_empty (x : option string) : string :=
  match x with
  | Some s => if JS.truthy_string s then s else ""
  | None => ""
  end.

(** A [string | undefined] that the type checker has narrowed to [string]
    after a truthiness test. *)
Definition narrowed (x : option string) : string :=
  match x with Some s => s | None => "" end.

(* ================================================================== *)
(** * The result of a form action *)
(* ================================================================== *)

(** [FormActionState]: an object with up to three properties. [fieldErrors]
    is an object from field name to messages, kept in insertion order. *)
Record FormActionState := {
  message : option string;
  fieldErrors : option (list (string * list string));
  formErrors : option (list string)
}.

Definition result_message (m : string) : FormActionState :=
  {| message := Some m; fieldErrors := None; formErrors := None |}.

Definition result_fieldErrors (field : string) (msgs : list string) : FormActionState :=
  {| message := None; fieldErrors := Some [(field, msgs)]; formErrors := None |}.

Definition result_formErrors (msgs : list string) : FormActionState :=
  {| message := None; fieldErrors := None; formErrors := Some msgs |}.

(** A variant is populated when its property is there and holds something:
    a message, at least one field, at least one form error. *)
Definition populated_message (r : FormActionState) : bool :=
  match message r with Some _ => true | None => false end.

Definition populated_fieldErrors (r : FormActionState) : bool :=
  match fieldErrors r with Some (_ :: _) => true | _ => false end.

Definition populated_formErrors (r : FormActionState) : bool :=
  match formErrors r with Some (_ :: _) => true | _ => false end.

Definition populated_count (r : FormActionState) : nat :=
  (if populated_message r then 1 else 0)
  + (if populated_fieldErrors r then 1 else 0)
  + (if populated_formErrors r then 1 else 0).

Definition populates_exactly_one (r : FormActionState) : Prop :=
  populated_count r = 1.

(** The names of the fields that carry an error. *)
Definition error_fields (r : FormActionState) : list string :=
  match fieldErrors r with
  | Some fe => map fst fe
  | None => []
  end.

(* ================================================================== *)
(** * What the actions import *)
(* ================================================================== *)

(** [ACCOUNT_VALIDATION] of [@/lib/constants]: the limits, the pattern and
    the messages the schemas refer to. The module is not among the sources,
    so its values are parameters of the development. *)
Record AccountValidation := {
  MIN_LENGTH_USERNAME : nat;
  MIN_LENGTH_PASSWORD : nat;
  PATTERNS_CONTAINS_NUMBER : string -> bool;
  EMAIL_REQUIRED : string;
  EMAIL_INVALID_TYPE : string;
  EMAIL_INVALID_FORMAT : string;
  EMAIL_DUPLICATE : string;
  USERNAME_REQUIRED : string;
  USERNAME_INVALID_TYPE : string;
  USERNAME_TOO_SHORT : string;
  USERNAME_DUPLICATE : string;
  PASSWORD_REQUIRED : string;
  PASSWORD_INVALID_TYPE : string;
  PASSWORD_TOO_SHORT : string;
  PASSWORD_NO_NUMBER : string;
  PASSWORD_CONFIRM : string
}.

(** The library functions whose results the actions only pass along: the
    pattern behind zod's [.email()], bcrypt's comparison and hash, and
    [encodeURIComponent]; and the two string methods of JavaScript that zod's
    [.trim()] and [.toLowerCase()] call, which are Unicode-aware: of these
    the development assumes only what they do to ASCII strings. *)
Class Imports := {
  ACCOUNT_VALIDATION : AccountValidation;
  emailRegex_test : string -> bool;
  bcrypt_compareSync : string -> string -> bool;
  bcrypt_hashSync : string -> nat -> string;
  encodeURIComponent : string -> string;
  String_prototype_trim : string -> string;
  String_prototype_toLowerCase : string -> string;
  trim_on_ASCII :
    forall s, JS.isASCII s = true -> String_prototype_trim s = JS.trimASCII s;
  toLowerCase_on_ASCII :
    forall s, JS.isASCII s = true ->
              String_prototype_toLowerCase s = JS.toLowerCaseASCII s
}.

(* ================================================================== *)
(** * zod *)
(* ================================================================== *)

Module Zod.

Record ZodIssue := { path : list string; issue_message : string }.

(** What a schema hands back: aborted ([INVALID]), a value with issues
    ([DIRTY]) or a clean value ([OK]). The issues themselves are collected
    beside it, in the order they were raised. *)
Inductive ParseReturn (A : Type) :=
| INVALID
| DIRTY (value : A)
| OK (value : A).
Arguments INVALID {A}.

Definition Parsed (A : Type) : Type := ParseReturn A * list ZodIssue.

Definition is_dirty {A} (r : ParseReturn A) : bool :=
  match r with DIRTY _ => true | _ => false end.

(** [ParseStatus.mergeObject] for one more key: aborted wins, then dirty. *)
Definition mergePair {A B C} (f : A -> B -> C) (a : ParseReturn A) (b : ParseReturn B)
  : ParseReturn C :=
  match a, b with
  | INVALID, _ | _, INVALID => INVALID
  | OK x, OK y => OK (f x y)
  | OK x, DIRTY y | DIRTY x, OK y | DIRTY x, DIRTY y => DIRTY (f x y)
  end.

(** ** [z.string()] and its checks *)

Inductive ZodStringCheck :=
| check_min (value : nat) (msg : string)
| check_email (msg : string)
| check_regex (regex : string -> bool) (msg : string)
| check_trim
| check_toLowerCase.

Record ZodString := {
  required_error : option string;
  invalid_type_error : option string;
  checks : list ZodStringCheck
}.

Definition string_ (required invalid_type : option string) : ZodString :=
  {| required_error := required; invalid_type_error := invalid_type; checks := [] |}.

Definition addCheck (c : ZodStringCheck) (s : ZodString) : ZodString :=
  {| required_error := required_error s;
     invalid_type_error := invalid_type_error s;
     checks := checks s ++ [c] |}.

Definition min (value : nat) (msg : string) := addCheck (check_min value msg).
Definition email (msg : string) := addCheck (check_email msg).
Definition regex (re : string -> bool) (msg : string) := addCheck (check_regex re msg).
Definition trim := addCheck check_trim.
Definition toLowerCase := addCheck check_toLowerCase.

(** The message of an [invalid_type] issue: the schema's own message for
    the case at hand when it gave one, else zod's default. *)
Definition invalid_type_message (s : ZodString) (input : JS.value) : string :=
  match input with
  | JS.undefined =>
      match required_error s with Some m => m | None => "Required" end
  | _ =>
      match invalid_type_error s with
      | Some m => m
      | None => ("Expected string, received " ++ JS.parsedType input)%string
      end
  end.

Section Checks.
Context `{Imports}.

(** The loop over the checks of [ZodString._parse]: a failed test adds an
    issue and marks the value dirty; [trim] and [toLowerCase] rewrite the
    data for the checks that follow. *)
Fixpoint runChecks (p : list string) (cs : list ZodStringCheck)
         (dirty : bool) (data : string) (issues : list ZodIssue)
  : bool * string * list ZodIssue :=
  match cs with
  | [] => (dirty, data, issues)
  | check_min n msg :: rest =>
      if String.length data <? n
      then runChecks p rest true data (issues ++ [{| path := p; issue_message := msg |}])
      else runChecks p rest dirty data issues
  | check_email msg :: rest =>
      if negb (emailRegex_test data)
      then runChecks p rest true data (issues ++ [{| path := p; issue_message := msg |}])
      else runChecks p rest dirty data issues
  | check_regex re msg :: rest =>
      if negb (re data)
      then runChecks p rest true data (issues ++ [{| path := p; issue_message := msg |}])
      else runChecks p rest dirty data issues
  | check_trim :: rest => runChecks p rest dirty (String_prototype_trim data) issues
  | check_toLowerCase :: rest =>
      runChecks p rest dirty (String_prototype_toLowerCase data) issues
  end.

Definition ZodString_parse (s : ZodString) (p : list string) (input : JS.value)
  : Parsed string :=
  match input with
  | JS.str data =>
      let '(dirty, data', issues) := runChecks p (checks s) false data [] in
      (if dirty then DIRTY data' else OK data', issues)
  | _ =>
      (INVALID, [{| path := p; issue_message := invalid_type_message s input |}])
  end.

(** [.optional()]: [undefined] passes as it is. *)
Definition ZodOptional_parse {A} (inner : list string -> JS.value -> Parsed A)
           (p : list string) (input : JS.value) : Parsed (option A) :=
  match input with
  | JS.undefined => (OK None, [])
  | _ =>
      let '(r, issues) := inner p input in
      (match r with
       | INVALID => INVALID
       | DIRTY v => DIRTY (Some v)
       | OK v => OK (Some v)
       end, issues)
  end.
End Checks.

(** ** Refinements and results *)

(** [.refine(check, { message, path })] on the value at the root. *)
Definition refine {A} (check : A -> bool) (msg : string) (p : list string) (v : A)
  : list ZodIssue :=
  if check v then [] else [{| path := p; issue_message := msg |}].

(** [ZodEffects] with a synchronous refinement: skipped on an aborted
    value, run on a clean and on a dirty one. *)
Definition refinement {A} (inner : Parsed A) (r : A -> list ZodIssue) : Parsed A :=
  let '(res, issues) := inner in
  match res with
  | INVALID => (INVALID, issues)
  | DIRTY v => (DIRTY v, issues ++ r v)
  | OK v =>
      match r v with
      | [] => (OK v, issues)
      | added => (DIRTY v, issues ++ added)
      end
  end.

Inductive SafeParseReturn (A : Type) :=
| success (data : A)
| failure (error : list ZodIssue).
Arguments failure {A}.

(** [handleResult]: success exactly for a clean value. *)
Definition handleResult {A} (r : Parsed A) : SafeParseReturn A :=
  match fst r with
  | OK v => success v
  | _ => failure (snd r)
  end.

(** [fieldErrors[field] = fieldErrors[field] || []; fieldErrors[field].push(m)]. *)
Fixpoint pushFieldError (field m : string) (fe : list (string * list string))
  : list (string * list string) :=
  match fe with
  | [] => [(field, [m])]
  | (k, ms) :: rest =>
      if String.eqb k field then (k, ms ++ [m]) :: rest
      else (k, ms) :: pushFieldError field m rest
  end.

(** The loop of [ZodError.flatten]: an issue with an empty path is a form
    error, any other goes under the first element of its path. *)
Fixpoint flatten_loop (issues : list ZodIssue)
         (formErrs : list string) (fieldErrs : list (string * list string))
  : list string * list (string * list string) :=
  match issues with
  | [] => (formErrs, fieldErrs)
  | sub :: rest =>
      match path sub with
      | firstEl :: _ =>
          flatten_loop rest formErrs (pushFieldError firstEl (issue_message sub) fieldErrs)
      | [] => flatten_loop rest (formErrs ++ [issue_message sub]) fieldErrs
      end
  end.

(** [error.flatten()]: an object with both [formErrors] and [fieldErrors]. *)
Definition flatten (error : list ZodIssue) : FormActionState :=
  let '(formErrs, fieldErrs) := flatten_loop error [] [] in
  {| message := None; fieldErrors := Some fieldErrs; formErrors := Some formErrs |}.

End Zod.

(* ================================================================== *)
(** * The runtime: datastore, session, call log *)
(* ================================================================== *)

(** A row of the user table. *)
Record User := {
  user_id : Z;
  user_email : string;
  user_username : string;
  user_bio : option string;
  user_password : string
}.

(** [where] of a point lookup: one of the unique keys. The session's id is
    [number | undefined], so the key by id may be [undefined]. *)
Inductive UserWhereUniqueInput :=
| where_id (id : option Z)
| where_username (username : string)
| where_email (email : string).

(** [data] of an update: the fields that are set, the others left alone. *)
Record UserUpdateInput := {
  data_email : option string;
  data_username : option string;
  data_bio : option string;
  data_password : option string
}.

Inductive RevalidateType := layout | page.

(** One entry per call to a collaborator, in the order the calls are made. *)
Inductive Event :=
| call_findUnique (where_ : UserWhereUniqueInput)
| call_update (where_ : UserWhereUniqueInput) (data : UserUpdateInput)
| call_delete (where_ : UserWhereUniqueInput)
| call_session_destroy
| call_bcrypt_compare (s hash : string)
| call_bcrypt_hash (s : string) (salt : nat)
| call_revalidateTag (tag : string)
| call_revalidatePath (originalPath : string) (type : RevalidateType)
| call_console_error (label : string).

(** What an invocation runs in. [faults n] tells whether the datastore call
    number [n] of the invocation raises a storage error whatever its
    arguments; [calls] counts the datastore calls made so far. *)
Record Runtime := {
  users : list User;
  session_id : option Z;
  faults : nat -> bool;
  calls : nat;
  log : list Event
}.

(** The state of the world when a request arrives. *)
Definition boot (us : list User) (sid : option Z) (f : nat -> bool) : Runtime :=
  {| users := us; session_id := sid; faults := f; calls := 0; log := [] |}.

Inductive Exception :=
| StorageError
| TypeError.

Inductive Completion (A : Type) :=
| Returned (a : A)
| Thrown (e : Exception).
Arguments Thrown {A}.

(** An [async] computation. *)
Definition Async (A : Type) : Type := Runtime -> Completion A * Runtime.

Definition ret {A} (a : A) : Async A := fun rt => (Returned a, rt).

Definition throw {A} (e : Exception) : Async A := fun rt => (Thrown e, rt).

Definition bind {A B} (m : Async A) (k : A -> Async B) : Async B :=
  fun rt =>
    match m rt with
    | (Returned a, rt') => k a rt'
    | (Thrown e, rt') => (Thrown e, rt')
    end.

(** [try { body } catch (error) { handler }]. *)
Definition try_catch {A} (body : Async A) (handler : Exception -> Async A) : Async A :=
  fun rt =>
    match body rt with
    | (Returned a, rt') => (Returned a, rt')
    | (Thrown e, rt') => handler e rt'
    end.

Declare Scope async_scope.
Delimit Scope async_scope with async.
Notation "x <- m ;; k" := (bind m (fun x => k))
  (at level 61, m at next level, right associativity) : async_scope.
Notation "m ;; k" := (bind m (fun _ => k))
  (at level 61, right associativity) : async_scope.
Open Scope async_scope.

Definition record (e : Event) : Async unit :=
  fun rt =>
    (Returned tt,
     {| users := users rt; session_id := session_id rt; faults := faults rt;
        calls := calls rt; log := log rt ++ [e] |}).

Definition set_users (us : list User) : Async unit :=
  fun rt =>
    (Returned tt,
     {| users := us; session_id := session_id rt; faults := faults rt;
        calls := calls rt; log := log rt |}).

(** A datastore call: it is logged, counted, and raises when the runtime
    says this call fails. *)
Definition datastore_call (e : Event) : Async unit :=
  fun rt =>
    let rt' := {| users := users rt; session_id := session_id rt; faults := faults rt;
                  calls := S (calls rt); log := log rt ++ [e] |} in
    if faults rt (calls rt) then (Thrown StorageError, rt') else (Returned tt, rt').

(** ** The session ([@/lib/session], iron-session) *)

(** [getSession()]: the content of the session, that is its [id]. *)
Definition getSession : Async (option Z) :=
  fun rt => (Returned (session_id rt), rt).

(** [session.destroy()]: the session holds no [id] afterwards. *)
Definition session_destroy : Async unit :=
  record call_session_destroy ;;
  fun rt =>
    (Returned tt,
     {| users := users rt; session_id := None; faults := faults rt;
        calls := calls rt; log := log rt |}).

(** ** The datastore ([@/lib/db]) *)

Definition matches (w : UserWhereUniqueInput) (u : User) : bool :=
  match w with
  | where_id (Some i) => (user_id u =? i)%Z
  | where_id None => false
  | where_username n => String.eqb (user_username u) n
  | where_email e => String.eqb (user_email u) e
  end.

Definition apply_update (d : UserUpdateInput) (u : User) : User :=
  {| user_id := user_id u;
     user_email := match data_email d with Some e => e | None => user_email u end;
     user_username := match data_username d with Some n => n | None => user_username u end;
     user_bio := match data_bio d with Some b => Some b | None => user_bio u end;
     user_password := match data_password d with Some p => p | None => user_password u end |}.

(** [u'] may not take the email or username of a row other than its own. *)
Definition violates_unique (u' : User) (us : list User) : bool :=
  existsb (fun o =>
             negb (user_id o =? user_id u')%Z
             && (String.eqb (user_email o) (user_email u')
                 || String.eqb (user_username o) (user_username u'))) us.

Definition replace_user (u' : User) (us : list User) : list User :=
  map (fun o => if (user_id o =? user_id u')%Z then u' else o) us.

Definition remove_user (i : Z) (us : list User) : list User :=
  filter (fun o => negb (user_id o =? i)%Z) us.

(** Modelled from the spec: the datastore client of [@/lib/db] is not among
    the sources. Section 6 gives it point lookups by unique key ([id],
    [username], [email]), a single-record update of a partial field set and a
    single-record delete, "each either succeeding or raising a storage
    error"; section 5 adds that the datastore itself enforces the unique
    constraints. A lookup answers the row or [null]; a key by id that is
    [undefined] matches no row (a client that rejects such a key is a runtime
    whose [faults] say so). *)
Definition db_user_findUnique (w : UserWhereUniqueInput) : Async (option User) :=
  datastore_call (call_findUnique w) ;;
  fun rt => (Returned (find (matches w) (users rt)), rt).

(** Modelled from the spec: the single-record update of [@/lib/db]. It raises
    when the call fails, when no row has the key, and when the new row would
    break a unique constraint; else the row is replaced. *)
Definition db_user_update (w : UserWhereUniqueInput) (d : UserUpdateInput) : Async unit :=
  datastore_call (call_update w d) ;;
  us <- (fun rt => (Returned (users rt), rt)) ;;
  match find (matches w) us with
  | None => throw StorageError
  | Some u =>
      let u' := apply_update d u in
      if violates_unique u' us then throw StorageError
      else set_users (replace_user u' us)
  end.

(** Modelled from the spec: the single-record delete of [@/lib/db]. It raises
    when the call fails and when no row has the key; else the row is gone. *)
Definition db_user_delete (w : UserWhereUniqueInput) : Async unit :=
  datastore_call (call_delete w) ;;
  us <- (fun rt => (Returned (users rt), rt)) ;;
  match find (matches w) us with
  | None => throw StorageError
  | Some u => set_users (remove_user (user_id u) us)
  end.

Section Collaborators.
Context `{Imports}.

(** ** bcryptjs, next/cache, console *)

Definition bcrypt_compare (s hash : string) : Async bool :=
  record (call_bcrypt_compare s hash) ;;
  ret (bcrypt_compareSync s hash).

Definition bcrypt_hash (s : string) (salt : nat) : Async string :=
  record (call_bcrypt_hash s salt) ;;
  ret (bcrypt_hashSync s salt).

Definition revalidateTag (tag : string) : Async unit :=
  record (call_revalidateTag tag).

Definition revalidatePath (originalPath : string) (type : RevalidateType) : Async unit :=
  record (call_revalidatePath originalPath type).

Definition console_error (label : string) : Async unit :=
  record (call_console_error label).

(** Modelled from the spec: [getCurrentUsername] of [@/lib/user] is not
    among the sources. Section 4.1 speaks of "the old user's profile page
    (if an old username existed)": the helper answers the username stored
    for the actor of the session, or nothing when no row is found. *)
Definition getCurrentUsername : Async (option string) :=
  session <- getSession ;;
  user <- db_user_findUnique (where_id session) ;;
  ret (option_map user_username user).

End Collaborators.

(** [ZodEffects] with an asynchronous refinement ([superRefine] under
    [safeParseAsync]): as [Zod.refinement], the refinement being awaited. An
    exception thrown by the refinement rejects the parse. *)
Definition refinementAsync {A} (inner : Zod.Parsed A) (r : A -> Async (list Zod.ZodIssue))
  : Async (Zod.Parsed A) :=
  let '(res, issues) := inner in
  match res with
  | Zod.INVALID => ret (Zod.INVALID, issues)
  | Zod.DIRTY v => added <- r v ;; ret (Zod.DIRTY v, issues ++ added)
  | Zod.OK v =>
      added <- r v ;;
      ret (match added with
           | [] => (Zod.OK v, issues)
           | _ => (Zod.DIRTY v, issues ++ added)
           end)
  end.

Notation "s |> f" := (f s) (at level 45, left associativity, only parsing).

(* ================================================================== *)
(** * The schemas *)
(* ================================================================== *)

Section Schemas.
Context `{Imports}.

(** ** [profileUpdateSchema] *)

Record ProfileInput := {
  in_email : JS.value;
  in_username : JS.value;
  in_bio : JS.value
}.

Record ProfileData := {
  email : string;
  username : string;
  bio : option string
}.

Definition profile_email : Zod.ZodString :=
  Zod.string_ (Some (EMAIL_REQUIRED ACCOUNT_VALIDATION))
              (Some (EMAIL_INVALID_TYPE ACCOUNT_VALIDATION))
  |> Zod.email (EMAIL_INVALID_FORMAT ACCOUNT_VALIDATION)
  |> Zod.trim
  |> Zod.toLowerCase.

Definition profile_username : Zod.ZodString :=
  Zod.string_ (Some (USERNAME_REQUIRED ACCOUNT_VALIDATION))
              (Some (USERNAME_INVALID_TYPE ACCOUNT_VALIDATION))
  |> Zod.min (MIN_LENGTH_USERNAME ACCOUNT_VALIDATION)
             (USERNAME_TOO_SHORT ACCOUNT_VALIDATION)
  |> Zod.trim.

Definition profile_bio : Zod.ZodString := Zod.string_ None None.

(** The [z.object({ email, username, bio })] part: the three fields are
    parsed in the order of the shape. *)
Definition profile_object (data : ProfileInput) : Zod.Parsed ProfileData :=
  let '(e, issues_e) := Zod.ZodString_parse profile_email ["email"] (in_email data) in
  let '(u, issues_u) := Zod.ZodString_parse profile_username ["username"] (in_username data) in
  let '(b, issues_b) :=
    Zod.ZodOptional_parse (Zod.ZodString_parse profile_bio) ["bio"] (in_bio data) in
  (Zod.mergePair (fun eu b' => Build_ProfileData (fst eu) (snd eu) b')
                 (Zod.mergePair pair e u) b,
   issues_e ++ issues_u ++ issues_b).

(** The [superRefine]: the uniqueness rules. *)
Definition profile_superRefine (v : ProfileData) : Async (list Zod.ZodIssue) :=
  session <- getSession ;;
  currentUser <- db_user_findUnique (where_id session) ;;
  issues_username <-
    (if negb (JS.strict_eq_opt (username v) (option_map user_username currentUser))
     then
       existingUsername <- db_user_findUnique (where_username (username v)) ;;
       ret (match existingUsername with
            | Some _ =>
                [{| Zod.path := ["username"];
                    Zod.issue_message := USERNAME_DUPLICATE ACCOUNT_VALIDATION |}]
            | None => []
            end)
     else ret []) ;;
  issues_email <-
    (if negb (JS.strict_eq_opt (email v) (option_map user_email currentUser))
     then
       existingEmail <- db_user_findUnique (where_email (email v)) ;;
       ret (match existingEmail with
            | Some _ =>
                [{| Zod.path := ["email"];
                    Zod.issue_message := EMAIL_DUPLICATE ACCOUNT_VALIDATION |}]
            | None => []
            end)
     else ret []) ;;
  ret (issues_username ++ issues_email).

Definition profileUpdateSchema_safeParseAsync (data : ProfileInput)
  : Async (Zod.SafeParseReturn ProfileData) :=
  parsed <- refinementAsync (profile_object data) profile_superRefine ;;
  ret (Zod.handleResult parsed).

(** ** [passwordUpdateSchema] *)

Record PasswordInput := {
  in_currentPassword : JS.value;
  in_newPassword : JS.value;
  in_confirmPassword : JS.value
}.

Record PasswordData := {
  currentPassword : string;
  newPassword : string;
  confirmPassword : string
}.

Definition password_current : Zod.ZodString :=
  Zod.string_ (Some "현재 비밀번호를 입력해주세요") None.

Definition password_new : Zod.ZodString :=
  Zod.string_ (Some (PASSWORD_REQUIRED ACCOUNT_VALIDATION))
              (Some (PASSWORD_INVALID_TYPE ACCOUNT_VALIDATION))
  |> Zod.min (MIN_LENGTH_PASSWORD ACCOUNT_VALIDATION)
             (PASSWORD_TOO_SHORT ACCOUNT_VALIDATION)
  |> Zod.regex (PATTERNS_CONTAINS_NUMBER ACCOUNT_VALIDATION)
               (PASSWORD_NO_NUMBER ACCOUNT_VALIDATION).

Definition password_confirm : Zod.ZodString :=
  Zod.string_ None None
  |> Zod.min (MIN_LENGTH_PASSWORD ACCOUNT_VALIDATION)
             (PASSWORD_TOO_SHORT ACCOUNT_VALIDATION).

Definition password_object (data : PasswordInput) : Zod.Parsed PasswordData :=
  let '(c, issues_c) :=
    Zod.ZodString_parse password_current ["currentPassword"] (in_currentPassword data) in
  let '(n, issues_n) :=
    Zod.ZodString_parse password_new ["newPassword"] (in_newPassword data) in
  let '(f, issues_f) :=
    Zod.ZodString_parse password_confirm ["confirmPassword"] (in_confirmPassword data) in
  (Zod.mergePair (fun cn f' => Build_PasswordData (fst cn) (snd cn) f')
                 (Zod.mergePair pair c n) f,
   issues_c ++ issues_n ++ issues_f).

Definition passwordUpdateSchema_safeParse (data : PasswordInput)
  : Zod.SafeParseReturn PasswordData :=
  Zod.handleResult
    (Zod.refinement (password_object data)
       (Zod.refine (fun v => String.eqb (newPassword v) (confirmPassword v))
                   (PASSWORD_CONFIRM ACCOUNT_VALIDATION) ["confirmPassword"])).

End Schemas.

(* ================================================================== *)
(** * The actions *)
(* ================================================================== *)

Section Actions.
Context `{Imports}.

Definition profile_update_data (d : ProfileData) : UserUpdateInput :=
  {| data_email := Some (email d);
     data_username := Some (username d);
     data_bio := bio d;
     data_password := None |}.

Definition password_update_data (hashed : string) : UserUpdateInput :=
  {| data_email := None; data_username := None; data_bio := None;
     data_password := Some hashed |}.

(** The [data] object [updateProfile] builds from the form. *)
Definition profile_form_data (formData : FormData) : ProfileInput :=
  {| in_email := entry_value (FormData_get formData "email");
     in_username := entry_value (FormData_get formData "username");
     in_bio := JS.str (or_empty (entry_toString (FormData_get formData "bio"))) |}.

(** The [data] object [updatePassword] builds from the form. *)
Definition password_form_data (formData : FormData) : PasswordInput :=
  {| in_currentPassword := entry_value (FormData_get formData "currentPassword");
     in_newPassword := entry_value (FormData_get formData "newPassword");
     in_confirmPassword := entry_value (FormData_get formData "confirmPassword") |}.

Definition users_path (name : string) : string :=
  ("/users/" ++ encodeURIComponent name)%string.

Definition updateProfile (_ : FormActionState) (formData : FormData)
  : Async FormActionState :=
  session <- getSession ;;
  let userId := session in
  let data := profile_form_data formData in
  result <- profileUpdateSchema_safeParseAsync data ;;
  match result with
  | Zod.failure error => ret (Zod.flatten error)
  | Zod.success result_data =>
      try_catch
        (oldUsername <- getCurrentUsername ;;
         let newUsername := username result_data in
         db_user_update (where_id userId) (profile_update_data result_data) ;;
         revalidateTag "user-profile" ;;
         (if negb (JS.strict_eq_opt newUsername oldUsername)
          then
            revalidatePath "/" layout ;;
            (match oldUsername with
             | Some old =>
                 if JS.truthy_string old
                 then revalidatePath (users_path old) page
                 else ret tt
             | None => ret tt
             end) ;;
            revalidatePath (users_path newUsername) page ;;
            revalidatePath "/tweets" layout ;;
            revalidatePath "/search" page
          else ret tt) ;;
         ret (result_message "프로필이 성공적으로 변경되었습니다."))
        (fun error =>
           console_error "Profile update error:" ;;
           ret (result_formErrors ["프로필 변경 중 오류가 발생했습니다."]))
  end.

(** [user!.password]: reading a property of [null] throws a [TypeError]. *)
Definition non_null_password (user : option User) : Async string :=
  match user with
  | Some u => ret (user_password u)
  | None => throw TypeError
  end.

Definition updatePassword (_ : FormActionState) (formData : FormData)
  : Async FormActionState :=
  session <- getSession ;;
  let userId := session in
  let data := password_form_data formData in
  let result := passwordUpdateSchema_safeParse data in
  match result with
  | Zod.failure error => ret (Zod.flatten error)
  | Zod.success result_data =>
      user <- db_user_findUnique (where_id userId) ;;
      stored <- non_null_password user ;;
      currentPasswordMatches <- bcrypt_compare (currentPassword result_data) stored ;;
      if negb currentPasswordMatches
      then ret (result_fieldErrors "currentPassword" ["현재 비밀번호가 일치하지 않습니다."])
      else
        hashedNewPassword <- bcrypt_hash (newPassword result_data) 12 ;;
        try_catch
          (db_user_update (where_id userId) (password_update_data hashedNewPassword) ;;
           ret (result_message "비밀번호가 성공적으로 변경되었습니다."))
          (fun error =>
             console_error "Password update error:" ;;
             ret (result_formErrors ["비밀번호 변경 중 오류가 발생했습니다."]))
  end.

Definition withdrawUser (_ : FormActionState) (formData : FormData)
  : Async FormActionState :=
  session <- getSession ;;
  let userId := session in
  if negb (JS.truthy_opt_number userId)
  then ret (result_formErrors ["로그인이 필요합니다."])
  else
    let password := entry_toString (FormData_get formData "password") in
    if negb (JS.truthy_opt_string password)
    then ret (result_fieldErrors "password" ["비밀번호를 입력해주세요."])
    else
      try_catch
        (user <- db_user_findUnique (where_id userId) ;;
         match user with
         | None => ret (result_formErrors ["사용자를 찾을 수 없습니다."])
         | Some u =>
             passwordMatches <- bcrypt_compare (narrowed password) (user_password u) ;;
             if negb passwordMatches
             then ret (result_fieldErrors "password" ["비밀번호가 일치하지 않습니다."])
             else
               db_user_delete (where_id userId) ;;
               session_destroy ;;
               ret (result_message "회원 탈퇴가 완료되었습니다.")
         end)
        (fun error =>
           console_error "User withdrawal error:" ;;
           ret (result_formErrors ["회원 탈퇴 중 오류가 발생했습니다."])).

End Actions.

(** The calls of a log that go to the cache-invalidation collaborator. *)
Definition is_invalidation (e : Event) : bool :=
  match e with
  | call_revalidateTag _ | call_revalidatePath _ _ => true
  | _ => false
  end.

Definition invalidations (l : list Event) : list Event := filter is_invalidation l.

(** The calls that change a row. *)
Definition is_mutation (e : Event) : bool :=
  match e with
  | call_update _ _ | call_delete _ => true
  | _ => false
  end.

(** The calls that read or change the datastore. *)
Definition is_datastore (e : Event) : bool :=
  match e with
  | call_findUnique _ | call_update _ _ | call_delete _ => true
  | _ => false
  end.

Definition is_hash (e : Event) : bool :=
  match e with call_bcrypt_hash _ _ => true | _ => false end.

(* ================================================================== *)
(** * Vocabulary of the properties *)
(* ================================================================== *)

Section Vocabulary.
Context `{Imports}.

(** The lookups the uniqueness rules may issue for the value [v] when the
    row of the actor is [current]. *)
Definition rule_lookup (sid : option Z) (current : option User) (v : ProfileData)
           (e : Event) : Prop :=
  e = call_findUnique (where_id sid)
  \/ (e = call_findUnique (where_username (username v))
      /\ option_map user_username current <> Some (username v))
  \/ (e = call_findUnique (where_email (email v))
      /\ option_map user_email current <> Some (email v)).

(** What the schema makes of a field that is a string: the email trimmed
    and in lower case, the username trimmed, the bio as it is. *)
Definition validated_email (data : ProfileInput) : option string :=
  match in_email data with
  | JS.str e => Some (String_prototype_toLowerCase (String_prototype_trim e))
  | _ => None
  end.

Definition validated_username (data : ProfileInput) : option string :=
  match in_username data with
  | JS.str s => Some (String_prototype_trim s)
  | _ => None
  end.

Definition validated_bio (data : ProfileInput) : option string :=
  match in_bio data with
  | JS.str b => Some b
  | _ => None
  end.

(** The lookups validation may issue for the form [data]. *)
Definition validation_lookup (sid : option Z) (current : option User)
           (data : ProfileInput) (e : Event) : Prop :=
  e = call_findUnique (where_id sid)
  \/ (exists x, e = call_findUnique (where_username x)
                /\ validated_username data = Some x
                /\ option_map user_username current <> Some x)
  \/ (exists x, e = call_findUnique (where_email x)
                /\ validated_email data = Some x
                /\ option_map user_email current <> Some x).

(** The invalidation signals of a successful [updateProfile] that found the
    username [old] in the datastore and stores [new]. *)
Definition expected_invalidations (old new : string) : list Event :=
  if String.eqb new old
  then [call_revalidateTag "user-profile"]
  else [call_revalidateTag "user-profile"; call_revalidatePath "/" layout]
       ++ (if JS.truthy_string old then [call_revalidatePath (users_path old) page] else [])
       ++ [call_revalidatePath (users_path new) page;
           call_revalidatePath "/tweets" layout;
           call_revalidatePath "/search" page].

(** An issue that sits at a field, not at the root of the form. *)
Definition at_field (i : Zod.ZodIssue) : Prop := Zod.path i <> [].


End Vocabulary.

(* ================================================================== *)
(** * A concrete setting, for running the actions *)
(* ================================================================== *)

Module Fixture.

Definition isDigit (c : ascii) : bool :=
  (48 <=? nat_of_ascii c) && (nat_of_ascii c <=? 57).

(** [/\d/.test(s)] *)
Fixpoint containsNumber (s : string) : bool :=
  match s with
  | EmptyString => false
  | String c r => isDigit c || containsNumber r
  end.

Fixpoint containsAt (s : string) : bool :=
  match s with
  | EmptyString => false
  | String c r => (nat_of_ascii c =? 64) || containsAt r
  end.

Definition constants : AccountValidation :=
  {| MIN_LENGTH_USERNAME := 3;
     MIN_LENGTH_PASSWORD := 8;
     PATTERNS_CONTAINS_NUMBER := containsNumber;
     EMAIL_REQUIRED := "email: required";
     EMAIL_INVALID_TYPE := "email: not a string";
     EMAIL_INVALID_FORMAT := "email: not an address";
     EMAIL_DUPLICATE := "email: taken";
     USERNAME_REQUIRED := "username: required";
     USERNAME_INVALID_TYPE := "username: not a string";
     USERNAME_TOO_SHORT := "username: too short";
     USERNAME_DUPLICATE := "username: taken";
     PASSWORD_REQUIRED := "password: required";
     PASSWORD_INVALID_TYPE := "password: not a string";
     PASSWORD_TOO_SHORT := "password: too short";
     PASSWORD_NO_NUMBER := "password: no digit";
     PASSWORD_CONFIRM := "password: confirmation differs" |}.

(** A stand-in for bcrypt: the digest of [s] is [s] behind a marker. *)
Definition imports : Imports :=
  {| ACCOUNT_VALIDATION := constants;
     emailRegex_test := containsAt;
     bcrypt_compareSync := fun s hash => String.eqb hash ("$2b$" ++ s)%string;
     bcrypt_hashSync := fun s _ => ("$2b$" ++ s)%string;
     encodeURIComponent := fun s => s;
     String_prototype_trim := JS.trimASCII;
     String_prototype_toLowerCase := JS.toLowerCaseASCII;
     trim_on_ASCII := fun _ _ => eq_refl;
     toLowerCase_on_ASCII := fun _ _ => eq_refl |}.

Definition alice : User :=
  {| user_id := 1; user_email := "alice@x.com"; user_username := "alice";
     user_bio := Some "hello"; user_password := "$2b$wonderland1" |}.

Definition bob : User :=
  {| user_id := 2; user_email := "bob@x.com"; user_username := "bob";
     user_bio := Some "builder"; user_password := "$2b$hunter22" |}.

Definition table : list User := [alice; bob].

Definition no_fault : nat -> bool := fun _ => false.

(** Only the datastore call number [n] fails. *)
Definition fault_at (n : nat) : nat -> bool := fun k => k =? n.

Definition idle : FormActionState :=
  {| message := None; fieldErrors := None; formErrors := None |}.

Definition password_form (current new confirm : string) : FormData :=
  [("currentPassword", EntryString current);
   ("newPassword", EntryString new);
   ("confirmPassword", EntryString confirm)].

Definition profile_form (e u b : string) : FormData :=
  [("email", EntryString e); ("username", EntryString u); ("bio", EntryString b)].

End Fixture.

(* ================================================================== *)
(** * Properties *)
(* ================================================================== *)

Arguments violates_unique : simpl never.
Arguments replace_user : simpl never.
Arguments remove_user : simpl never.
Arguments apply_update : simpl never.
Arguments users_path : simpl never.
Arguments Nat.ltb : simpl never.

(** Unfolding of the monad and of the collaborators' calls. *)
Ltac exec :=
  cbv beta iota zeta delta
    [bind ret throw try_catch record set_users datastore_call getSession
     session_destroy db_user_findUnique db_user_update db_user_delete
     bcrypt_compare bcrypt_hash revalidateTag revalidatePath console_error
     getCurrentUsername non_null_password refinementAsync boot];
  cbn [users session_id faults calls log fst snd].

Section Properties.
Context `{Imports}.

Lemma find_matches_id (i : option Z) (us : list User) (u : User) :
  find (matches (where_id i)) us = Some u -> i = Some (user_id u).
Proof.
  intros Hf. apply find_some in Hf. destruct Hf as [_ Hm].
  destruct i as [i|]; simpl in Hm; [|discriminate].
  apply Z.eqb_eq in Hm. now subst.
Qed.

(** A session without id has no row. *)
Lemma find_without_session (us : list User) :
  find (matches (where_id None)) us = None.
Proof. induction us as [|o us IH]; [reflexivity | exact IH]. Qed.

(** A deleted row is not found any more. *)
Lemma find_remove_user (i : Z) (us : list User) :
  find (matches (where_id (Some i))) (remove_user i us) = None.
Proof.
  unfold remove_user. induction us as [|o us IH]; [reflexivity|].
  cbn. destruct (user_id o =? i)%Z eqn:E; cbn; [exact IH|].
  now rewrite E.
Qed.

(** ** The claims on [withdrawUser] *)

Lemma truthy_string_nonempty (s : string) : s <> "" -> JS.truthy_string s = true.
Proof. destruct s; [congruence | reflexivity]. Qed.

(** C8. With an authenticated actor and a password field that is absent or
    empty, [withdrawUser] returns an error on the field [password] and
    leaves the runtime as it found it: the log is empty, no lookup was
    issued. *)
Theorem withdrawUser_empty_password prev formData us uid f :
  uid <> 0%Z ->
  FormData_get formData "password" = None
  \/ FormData_get formData "password" = Some (EntryString "") ->
  withdrawUser prev formData (boot us (Some uid) f)
  = (Returned (result_fieldErrors "password" ["비밀번호를 입력해주세요."]),
     boot us (Some uid) f)
  /\ filter is_datastore (log (snd (withdrawUser prev formData (boot us (Some uid) f))))
     = [].
Proof.
  intros Hid Hp.
  assert (E : withdrawUser prev formData (boot us (Some uid) f)
              = (Returned (result_fieldErrors "password" ["비밀번호를 입력해주세요."]),
                 boot us (Some uid) f)).
  { unfold withdrawUser. exec. cbn [JS.truthy_opt_number].
    apply Z.eqb_neq in Hid. rewrite Hid. cbn.
    destruct Hp as [-> | ->]; reflexivity. }
  rewrite E. split; reflexivity.
Qed.

(** C1. An authenticated actor, a non-empty password, a row for the actor
    that the lookup returns, a password that matches the stored hash.
    If the delete goes through, the calls are lookup, comparison, delete,
    session destroy in this order, the row is gone, the session is
    destroyed and the success message is returned. If the delete raises,
    the session is never destroyed, the row and the session are as they
    were and the generic form error is returned. *)
Theorem withdrawUser_delete_then_destroy prev formData us uid f u pw :
  uid <> 0%Z ->
  entry_toString (FormData_get formData "password") = Some pw ->
  pw <> "" ->
  find (matches (where_id (Some uid))) us = Some u ->
  f 0 = false ->
  bcrypt_compareSync pw (user_password u) = true ->
  let run := withdrawUser prev formData (boot us (Some uid) f) in
  (f 1 = false ->
     fst run = Returned (result_message "회원 탈퇴가 완료되었습니다.")
     /\ log (snd run) = [call_findUnique (where_id (Some uid));
                         call_bcrypt_compare pw (user_password u);
                         call_delete (where_id (Some uid));
                         call_session_destroy]
     /\ users (snd run) = remove_user uid us
     /\ find (matches (where_id (Some uid))) (users (snd run)) = None
     /\ session_id (snd run) = None)
  /\
  (f 1 = true ->
     fst run = Returned (result_formErrors ["회원 탈퇴 중 오류가 발생했습니다."])
     /\ ~ In call_session_destroy (log (snd run))
     /\ users (snd run) = us
     /\ session_id (snd run) = Some uid).
Proof.
  intros Hid Hpw Hne Hu Hf0 Hcmp run. subst run.
  pose proof (find_matches_id _ _ Hu) as Hi. injection Hi as Hi.
  unfold withdrawUser. exec.
  assert (Ht : (uid =? 0)%Z = false) by now apply Z.eqb_neq.
  cbn [JS.truthy_opt_number negb]. rewrite Ht, Hpw. cbn.
  rewrite (truthy_string_nonempty Hne). cbn.
  repeat (progress (rewrite ?Hf0, ?Hu, ?Hcmp; cbn)).
  split; intros Hf1; rewrite Hf1; repeat (progress (rewrite ?Hu; cbn)).
  - rewrite <- Hi. repeat split; try reflexivity. apply find_remove_user.
  - repeat split; try reflexivity.
    intros [E|[E|[E|[E|[]]]]]; discriminate.
Qed.

(** ** Profile validation *)

Lemma strict_eq_opt_false (a : string) (b : option string) :
  JS.strict_eq_opt a b = false -> b <> Some a.
Proof.
  destruct b as [b|]; simpl; [|discriminate].
  intros E [= ->]. now rewrite String.eqb_refl in E.
Qed.

Lemma strict_eq_opt_true (a : string) (b : option string) :
  JS.strict_eq_opt a b = true -> b = Some a.
Proof.
  destruct b as [b|]; simpl; [|discriminate].
  intros E. apply String.eqb_eq in E. now subst.
Qed.

Lemma profile_superRefine_run (v : ProfileData) (rt : Runtime) :
  let run := profile_superRefine v rt in
  users (snd run) = users rt
  /\ session_id (snd run) = session_id rt
  /\ faults (snd run) = faults rt
  /\ exists l, log (snd run) = log rt ++ l
       /\ Forall (rule_lookup (session_id rt)
                     (find (matches (where_id (session_id rt))) (users rt)) v) l.
Proof.
  unfold profile_superRefine. exec.
  set (current := find (matches (where_id (session_id rt))) (users rt)).
  destruct (faults rt (calls rt)); cbn.
  { repeat split. eexists. split; [reflexivity|]. repeat constructor. }
  fold current.
  destruct (JS.strict_eq_opt (username v) (option_map user_username current)) eqn:Eu;
    destruct (JS.strict_eq_opt (email v) (option_map user_email current)) eqn:Ee;
    cbn;
    repeat match goal with
      | |- context [if faults ?r ?n then _ else _] => destruct (faults r n); cbn
      end;
    repeat split;
    rewrite <- ?app_assoc; cbn [app];
    (eexists; split; [reflexivity|]);
    repeat (apply Forall_cons || apply Forall_nil);
    unfold rule_lookup;
    first [ left; reflexivity
          | right; left; split; [reflexivity | now apply strict_eq_opt_false]
          | right; right; split; [reflexivity | now apply strict_eq_opt_false] ].
Qed.

(** A value leaves the object part of the schema only when email and
    username were strings; it then holds them trimmed, the email in lower
    case, and the bio as given. *)
Lemma profile_object_value (data : ProfileInput) :
  match fst (profile_object data) with
  | Zod.INVALID => True
  | Zod.DIRTY v | Zod.OK v =>
      validated_email data = Some (email v)
      /\ validated_username data = Some (username v)
      /\ bio v = validated_bio data
  end.
Proof.
  destruct data as [e u b].
  unfold profile_object, validated_email, validated_username, validated_bio.
  destruct e, u, b; cbn; try exact I;
    repeat match goal with
      | |- context [if ?c then _ else _] => destruct c; cbn
      end; auto.
Qed.

Lemma rule_lookup_validation sid current data v e :
  validated_email data = Some (email v) ->
  validated_username data = Some (username v) ->
  rule_lookup sid current v e -> validation_lookup sid current data e.
Proof.
  intros He Hu [E|[[E N]|[E N]]]; [left | right; left | right; right]; eauto.
Qed.

Lemma profile_validation_run (data : ProfileInput) (rt : Runtime) :
  let run := profileUpdateSchema_safeParseAsync data rt in
  users (snd run) = users rt
  /\ session_id (snd run) = session_id rt
  /\ faults (snd run) = faults rt
  /\ (exists l, log (snd run) = log rt ++ l
        /\ Forall (validation_lookup (session_id rt)
                     (find (matches (where_id (session_id rt))) (users rt)) data) l)
  /\ (forall d, fst run = Returned (Zod.success d) ->
        validated_email data = Some (email d)
        /\ validated_username data = Some (username d)
        /\ bio d = validated_bio data).
Proof.
  unfold profileUpdateSchema_safeParseAsync.
  pose proof (profile_object_value data) as Hv.
  destruct (profile_object data) as [res issues]. cbn [fst] in Hv.
  destruct res as [|v|v]; exec.
  - repeat split; try discriminate.
    exists []. rewrite app_nil_r. split; [reflexivity | constructor].
  - destruct Hv as (He & Hu & Hb).
    destruct (profile_superRefine_run v rt) as (R1 & R2 & R3 & l & R4 & R5).
    destruct (profile_superRefine v rt) as [[added|ex] rt1]; cbn in *;
      (repeat split; try assumption; try discriminate;
       exists l; split; [assumption|];
       eapply Forall_impl; [|exact R5]; intros a; now apply rule_lookup_validation).
  - destruct Hv as (He & Hu & Hb).
    destruct (profile_superRefine_run v rt) as (R1 & R2 & R3 & l & R4 & R5).
    destruct (profile_superRefine v rt) as [[added|ex] rt1]; cbn in *.
    + split; [assumption|]. split; [assumption|]. split; [assumption|]. split.
      * exists l; split; [assumption|].
        eapply Forall_impl; [|exact R5]; intros a; now apply rule_lookup_validation.
      * intros d Hd. destruct added; cbn in Hd; [|discriminate Hd].
        injection Hd as <-. now repeat split.
    + repeat split; try assumption; try discriminate.
      exists l; split; [assumption|].
      eapply Forall_impl; [|exact R5]; intros a; now apply rule_lookup_validation.
Qed.

Lemma validation_lookup_is_lookup sid current data e :
  validation_lookup sid current data e -> exists w, e = call_findUnique w.
Proof. intros [E|[(x & E & _)|(x & E & _)]]; eauto. Qed.

Lemma lookups_no_invalidation sid current data l :
  Forall (validation_lookup sid current data) l -> invalidations l = [].
Proof.
  induction 1 as [|e l He _ IH]; [reflexivity|].
  destruct (validation_lookup_is_lookup He) as [w ->]. exact IH.
Qed.

Lemma message_flatten (error : list Zod.ZodIssue) : message (Zod.flatten error) = None.
Proof. unfold Zod.flatten. now destruct (Zod.flatten_loop error [] []). Qed.

Lemma updateProfile_success prev formData us sid f r rt m :
  updateProfile prev formData (boot us sid f) = (Returned r, rt) ->
  message r = Some m ->
  exists u d,
    find (matches (where_id sid)) us = Some u
    /\ validated_email (profile_form_data formData) = Some (email d)
    /\ validated_username (profile_form_data formData) = Some (username d)
    /\ bio d = validated_bio (profile_form_data formData)
    /\ users rt = replace_user (apply_update (profile_update_data d) u) us
    /\ In (call_update (where_id sid) (profile_update_data d)) (log rt)
    /\ invalidations (log rt) = expected_invalidations (user_username u) (username d).
Proof.
  unfold updateProfile. exec.
  set (rt0 := {| users := us; session_id := sid; faults := f; calls := 0; log := [] |}).
  set (data := profile_form_data formData).
  destruct (profile_validation_run data rt0) as (R1 & R2 & R3 & (l & R4 & R5) & R6).
  destruct (profileUpdateSchema_safeParseAsync data rt0) as [[[d|err]|ex] rt1];
    cbn [fst snd] in *.
  2: { intros [= <- <-] Hm. now rewrite message_flatten in Hm. }
  2: { discriminate. }
  destruct (R6 d eq_refl) as (He & Hu & Hb).
  rewrite R1, R2, R3. subst rt0. cbn [users session_id faults calls log app] in *.
  assert (Hinv : invalidations (log rt1) = [])
    by (rewrite R4; exact (lookups_no_invalidation R5)).
  destruct (f (calls rt1)); cbn.
  { intros [= <- <-]; discriminate. }
  destruct (find (matches (where_id sid)) us) as [u|] eqn:Hfind; cbn.
  2: { destruct (f (S (calls rt1))); cbn; rewrite ?Hfind; cbn;
       intros [= <- <-]; discriminate. }
  destruct (f (S (calls rt1))); cbn.
  { intros [= <- <-]; discriminate. }
  rewrite Hfind; cbn.
  destruct (violates_unique (apply_update (profile_update_data d) u) us); cbn.
  { intros [= <- <-]; discriminate. }
  unfold JS.strict_eq_opt.
  destruct (String.eqb (username d) (user_username u)) eqn:E; cbn;
    [| destruct (JS.truthy_string (user_username u)) eqn:T; cbn ];
    intros [= <- <-] _; exists u, d; unfold expected_invalidations;
    rewrite E, ?T; cbn;
    (repeat split; try assumption; try reflexivity;
     [ rewrite !in_app_iff; cbn; tauto
     | unfold invalidations in *; rewrite !filter_app, Hinv; reflexivity ]).
Qed.

Lemma find_replace_user (i : option Z) (us : list User) (u u' : User) :
  find (matches (where_id i)) us = Some u ->
  user_id u' = user_id u ->
  find (matches (where_id i)) (replace_user u' us) = Some u'.
Proof.
  intros Hf Hid. pose proof (find_matches_id _ _ Hf) as ->.
  unfold replace_user. rewrite Hid.
  induction us as [|o us IH]; [discriminate|].
  cbn in *. destruct (user_id o =? user_id u)%Z eqn:E; cbn.
  - now rewrite Hid, Z.eqb_refl.
  - rewrite E. now apply IH.
Qed.

(** ** The claims on [updateProfile] and its schema *)

(** C3. Profile validation looks another row up by email only when the
    trimmed, lower-cased email of the form differs from the email stored
    for the actor, and by username only when the trimmed username differs
    from the stored one: with an unchanged email no lookup by email is in
    the log, with an unchanged username no lookup by username, and every
    lookup by email or username that is in the log carries the validated
    value of the form, which is not the actor's. *)
Theorem profile_validation_uniqueness_lookups (data : ProfileInput)
        (us : list User) (sid : option Z) (f : nat -> bool) :
  let run := profileUpdateSchema_safeParseAsync data (boot us sid f) in
  let current := find (matches (where_id sid)) us in
  (forall u e,
      current = Some u -> in_email data = JS.str e ->
      String_prototype_toLowerCase (String_prototype_trim e) = user_email u ->
      forall x, ~ In (call_findUnique (where_email x)) (log (snd run)))
  /\ (forall u s,
      current = Some u -> in_username data = JS.str s ->
      String_prototype_trim s = user_username u ->
      forall x, ~ In (call_findUnique (where_username x)) (log (snd run)))
  /\ (forall x,
      In (call_findUnique (where_email x)) (log (snd run)) ->
      validated_email data = Some x /\ option_map user_email current <> Some x)
  /\ (forall x,
      In (call_findUnique (where_username x)) (log (snd run)) ->
      validated_username data = Some x /\ option_map user_username current <> Some x).
Proof.
  intros run current.
  destruct (profile_validation_run data (boot us sid f))
    as (_ & _ & _ & (l & Hl & Hall) & _).
  fold run in Hl. cbn in Hl, Hall. fold current in Hall.
  rewrite Forall_forall in Hall.
  assert (Hemail : forall x,
             In (call_findUnique (where_email x)) (log (snd run)) ->
             validated_email data = Some x /\ option_map user_email current <> Some x).
  { intros x Hin. rewrite Hl in Hin.
    destruct (Hall _ Hin) as [E|[(y & E & _)|(y & E & V & N)]];
      try discriminate E.
    injection E as ->. now split. }
  assert (Husername : forall x,
             In (call_findUnique (where_username x)) (log (snd run)) ->
             validated_username data = Some x
             /\ option_map user_username current <> Some x).
  { intros x Hin. rewrite Hl in Hin.
    destruct (Hall _ Hin) as [E|[(y & E & V & N)|(y & E & _)]];
      try discriminate E.
    injection E as ->. now split. }
  repeat split; try (now apply Hemail); try (now apply Husername).
  - intros u e Hc He Hsame x Hin.
    destruct (Hemail x Hin) as [V N]. unfold validated_email in V.
    rewrite He in V. injection V as <-. apply N. rewrite Hc. cbn. now rewrite Hsame.
  - intros u s Hc Hs Hsame x Hin.
    destruct (Husername x Hin) as [V N]. unfold validated_username in V.
    rewrite Hs in V. injection V as <-. apply N. rewrite Hc. cbn. now rewrite Hsame.
Qed.

(** With the username unchanged and the email changed, the uniqueness rules
    read the actor's row and look the new email up, nothing else. *)
Lemma profile_superRefine_email_only (v : ProfileData) (rt : Runtime) (u : User) :
  find (matches (where_id (session_id rt))) (users rt) = Some u ->
  faults rt (calls rt) = false ->
  username v = user_username u ->
  email v <> user_email u ->
  log (snd (profile_superRefine v rt))
  = log rt ++ [call_findUnique (where_id (session_id rt));
               call_findUnique (where_email (email v))].
Proof.
  intros Hu Hf Hname Hmail.
  unfold profile_superRefine. exec. rewrite Hf. cbn. rewrite Hu. cbn.
  unfold JS.strict_eq_opt. rewrite Hname, String.eqb_refl. cbn.
  apply String.eqb_neq in Hmail. rewrite Hmail. cbn.
  destruct (faults rt (S (calls rt))); cbn; now rewrite <- app_assoc.
Qed.

Lemma log_bind_ret {A B} (m : Async A) (g : A -> B) (rt : Runtime) :
  log (snd ((x <- m ;; ret (g x)) rt)) = log (snd (m rt)).
Proof. exec. now destruct (m rt) as [[a|ex] rt1]. Qed.

Lemma refinementAsync_log {A} (res : Zod.ParseReturn A) (issues : list Zod.ZodIssue)
      (r : A -> Async (list Zod.ZodIssue)) (rt : Runtime) :
  log (snd (refinementAsync (res, issues) r rt))
  = match res with
    | Zod.INVALID => log rt
    | Zod.DIRTY v | Zod.OK v => log (snd (r v rt))
    end.
Proof.
  destruct res as [|v|v]; exec; [reflexivity| |]; now destruct (r v rt) as [[added|ex] rt1].
Qed.

(** C6. The form [{email: "A@X.com", username: "bob", bio: ""}] of an
    actor whose stored username is "bob" and whose stored email is not
    "a@x.com": validation reads the actor's row and then looks up the email
    "a@x.com", in lower case; no lookup by username is made. *)
Theorem profile_validation_scenario (us : list User) (uid : Z) (f : nat -> bool)
        (u : User) :
  find (matches (where_id (Some uid))) us = Some u ->
  user_username u = "bob" ->
  user_email u <> "a@x.com" ->
  f 0 = false ->
  let data :=
    profile_form_data
      [("email", EntryString "A@X.com"); ("username", EntryString "bob");
       ("bio", EntryString "")] in
  log (snd (profileUpdateSchema_safeParseAsync data (boot us (Some uid) f)))
  = [call_findUnique (where_id (Some uid)); call_findUnique (where_email "a@x.com")].
Proof.
  intros Hu Hname Hmail Hf0 data.
  change data with {| in_email := JS.str "A@X.com"; in_username := JS.str "bob";
                      in_bio := JS.str "" |}.
  clear data. set (data := Build_ProfileInput _ _ _).
  unfold profileUpdateSchema_safeParseAsync.
  rewrite log_bind_ret.
  pose proof (profile_object_value data) as Hv.
  assert (Hvalid : fst (profile_object data) <> Zod.INVALID).
  { unfold profile_object, data. cbn.
    repeat match goal with
      | |- context [if ?c then _ else _] => destruct c; cbn
      end; discriminate. }
  destruct (profile_object data) as [res issues]. cbn [fst] in Hv, Hvalid.
  rewrite refinementAsync_log.
  assert (Hrun : forall v, validated_email data = Some (email v) ->
                           validated_username data = Some (username v) ->
                           log (snd (profile_superRefine v (boot us (Some uid) f)))
                           = [call_findUnique (where_id (Some uid));
                              call_findUnique (where_email "a@x.com")]).
  { intros v He Hn. injection He as He. injection Hn as Hn.
    rewrite (trim_on_ASCII "A@X.com" eq_refl) in He.
    rewrite (toLowerCase_on_ASCII (JS.trimASCII "A@X.com") eq_refl) in He.
    rewrite (trim_on_ASCII "bob" eq_refl) in Hn.
    change (JS.toLowerCaseASCII (JS.trimASCII "A@X.com")) with "a@x.com" in He.
    change (JS.trimASCII "bob") with "bob" in Hn.
    rewrite (@profile_superRefine_email_only v (boot us (Some uid) f) u);
      cbn; try assumption; rewrite <- ?He, <- ?Hn; auto. }
  destruct res as [|v|v]; [congruence| |]; destruct Hv as (He & Hn & _); now apply Hrun.
Qed.

(** C5. After a successful update the invalidation signals are, in this
    order: the tag "user-profile" and, when the validated username differs
    from the one stored for the actor, the layout of "/", the page of the
    old username if it is not empty, the page of the new username, the
    layout of "/tweets" and the page of "/search"; when the username is
    unchanged the tag is the only signal. *)
Theorem updateProfile_invalidations prev formData us sid f r rt m :
  updateProfile prev formData (boot us sid f) = (Returned r, rt) ->
  message r = Some m ->
  exists old new,
    option_map user_username (find (matches (where_id sid)) us) = Some old
    /\ validated_username (profile_form_data formData) = Some new
    /\ (new = old ->
        invalidations (log rt) = [call_revalidateTag "user-profile"])
    /\ (new <> old ->
        invalidations (log rt)
        = [call_revalidateTag "user-profile"; call_revalidatePath "/" layout]
          ++ (if JS.truthy_string old
              then [call_revalidatePath (users_path old) page] else [])
          ++ [call_revalidatePath (users_path new) page;
              call_revalidatePath "/tweets" layout;
              call_revalidatePath "/search" page]).
Proof.
  intros Hrun Hm.
  destruct (updateProfile_success _ _ _ _ _ Hrun Hm)
    as (u & d & Hu & _ & Hn & _ & _ & _ & Hinv).
  exists (user_username u), (username d).
  rewrite Hu. repeat split; try assumption.
  - intros E. rewrite Hinv. unfold expected_invalidations.
    apply String.eqb_eq in E. now rewrite E.
  - intros E. rewrite Hinv. unfold expected_invalidations.
    apply String.eqb_neq in E. now rewrite E.
Qed.

(** C10. The bio handed to validation is always a string, the empty one
    when the form has no bio field; a successful update stores it. So after
    a successful update of a form without bio the actor's row holds the
    empty bio, whatever it held before. *)
Theorem updateProfile_missing_bio prev formData us sid f r rt m :
  FormData_get formData "bio" = None ->
  updateProfile prev formData (boot us sid f) = (Returned r, rt) ->
  message r = Some m ->
  in_bio (profile_form_data formData) = JS.str ""
  /\ exists u u' d,
       find (matches (where_id sid)) us = Some u
       /\ In (call_update (where_id sid) d) (log rt)
       /\ data_bio d = Some ""
       /\ find (matches (where_id sid)) (users rt) = Some u'
       /\ user_bio u' = Some "".
Proof.
  intros Hbio Hrun Hm.
  destruct (updateProfile_success _ _ _ _ _ Hrun Hm)
    as (u & d & Hu & _ & _ & Hb & Hus & Hin & _).
  assert (Hin_bio : in_bio (profile_form_data formData) = JS.str "")
    by (unfold profile_form_data; cbn; now rewrite Hbio).
  unfold validated_bio in Hb. rewrite Hin_bio in Hb.
  split; [exact Hin_bio|].
  exists u, (apply_update (profile_update_data d) u), (profile_update_data d).
  split; [exact Hu|]. split; [exact Hin|]. split; [exact Hb|]. split.
  - rewrite Hus. now apply find_replace_user with (u := u).
  - unfold apply_update, profile_update_data. cbn. now rewrite Hb.
Qed.

(** ** The claims on [updatePassword] *)

Lemma entry_value_str (e : option FormDataEntryValue) (s : string) :
  entry_value e = JS.str s <-> e = Some (EntryString s).
Proof.
  split.
  - destruct e as [[x|x]|]; cbn; intros [=]; now subst.
  - now intros ->.
Qed.

(** C7. When the form holds a current password and a new password that
    passes its checks, and the confirmation is anything but that new
    password, validation fails and the action returns at once with errors
    on the field [confirmPassword] and on no other field. *)
Theorem updatePassword_confirm_mismatch prev formData rt c n :
  FormData_get formData "currentPassword" = Some (EntryString c) ->
  FormData_get formData "newPassword" = Some (EntryString n) ->
  MIN_LENGTH_PASSWORD ACCOUNT_VALIDATION <= String.length n ->
  PATTERNS_CONTAINS_NUMBER ACCOUNT_VALIDATION n = true ->
  FormData_get formData "confirmPassword" <> Some (EntryString n) ->
  exists issues msgs,
    passwordUpdateSchema_safeParse (password_form_data formData) = Zod.failure issues
    /\ updatePassword prev formData rt = (Returned (Zod.flatten issues), rt)
    /\ Zod.flatten issues
       = {| message := None;
            fieldErrors := Some [("confirmPassword", msgs)];
            formErrors := Some [] |}
    /\ msgs <> [].
Proof.
  intros Hc Hn Hlen Hnum Hdiff.
  unfold updatePassword. exec.
  unfold passwordUpdateSchema_safeParse, password_object, password_form_data.
  rewrite Hc, Hn. cbn.
  apply Nat.ltb_ge in Hlen. rewrite Hlen, Hnum. cbn.
  destruct (FormData_get formData "confirmPassword") as [[c2|file]|]; cbn.
  - assert (E : String.eqb n c2 = false)
      by (apply String.eqb_neq; congruence).
    destruct (String.length c2 <? MIN_LENGTH_PASSWORD ACCOUNT_VALIDATION);
      cbn; unfold Zod.refine; cbn; rewrite E; cbn; do 2 eexists;
      (split; [reflexivity|]); (split; [reflexivity|]); (split; [reflexivity|]);
      discriminate.
  - do 2 eexists.
    (split; [reflexivity|]); (split; [reflexivity|]); (split; [reflexivity|]);
      discriminate.
  - do 2 eexists.
    (split; [reflexivity|]); (split; [reflexivity|]); (split; [reflexivity|]);
      discriminate.
Qed.

(** What a form that passes [passwordUpdateSchema] holds. *)
Lemma password_validation_success (data : PasswordInput) (d : PasswordData) :
  passwordUpdateSchema_safeParse data = Zod.success d ->
  in_currentPassword data = JS.str (currentPassword d)
  /\ in_newPassword data = JS.str (newPassword d)
  /\ in_confirmPassword data = JS.str (confirmPassword d)
  /\ newPassword d = confirmPassword d
  /\ MIN_LENGTH_PASSWORD ACCOUNT_VALIDATION <= String.length (newPassword d)
  /\ PATTERNS_CONTAINS_NUMBER ACCOUNT_VALIDATION (newPassword d) = true.
Proof.
  destruct data as [c n k].
  unfold passwordUpdateSchema_safeParse, password_object.
  destruct c as [| |c|], n as [| |n|], k as [| |k|]; unfold Zod.refine; cbn;
    repeat match goal with
      | |- context [if ?b then _ else _] => destruct b eqn:?; cbn
      end;
    try (intros E; discriminate E).
  intros [= <-]; cbn.
  repeat match goal with
    | E : negb _ = false |- _ => apply negb_false_iff in E
    | E : (_ <? _) = false |- _ => apply Nat.ltb_ge in E
    | E : String.eqb _ _ = true |- _ => apply String.eqb_eq in E
    end.
  repeat split; assumption.
Qed.

(** C4. When the form passes validation, the actor's row is read, and the
    current password of the form does not match the stored hash, the action
    returns an error on the field [currentPassword]; by then it has made
    two calls, the lookup and the comparison: no hash is computed, no
    update is issued, the table is as it was. *)
Theorem updatePassword_wrong_current prev formData us sid f d u :
  passwordUpdateSchema_safeParse (password_form_data formData) = Zod.success d ->
  find (matches (where_id sid)) us = Some u ->
  f 0 = false ->
  bcrypt_compareSync (currentPassword d) (user_password u) = false ->
  let run := updatePassword prev formData (boot us sid f) in
  FormData_get formData "currentPassword" = Some (EntryString (currentPassword d))
  /\ fst run
     = Returned (result_fieldErrors "currentPassword" ["현재 비밀번호가 일치하지 않습니다."])
  /\ log (snd run)
     = [call_findUnique (where_id sid);
        call_bcrypt_compare (currentPassword d) (user_password u)]
  /\ filter is_mutation (log (snd run)) = []
  /\ filter is_hash (log (snd run)) = []
  /\ users (snd run) = us.
Proof.
  intros Hok Hu Hf0 Hcmp run. subst run.
  destruct (password_validation_success _ Hok) as (Hc & _).
  split; [now apply entry_value_str|].
  unfold updatePassword. exec. rewrite Hok. exec.
  rewrite Hf0. cbn. rewrite Hu. cbn. rewrite Hcmp. cbn.
  repeat split; reflexivity.
Qed.

(** C9. When the form passes validation and no row exists for the id of the
    session (an id that is missing, or that of a deleted user),
    [updatePassword] does not return: the lookup is its only call, made
    outside any [try], and either it raises or [user!.password] throws a
    [TypeError]. [withdrawUser] in contrast answers a session without id
    with a form error, before any call. *)
Theorem updatePassword_missing_user_throws prev formData us sid f d :
  passwordUpdateSchema_safeParse (password_form_data formData) = Zod.success d ->
  find (matches (where_id sid)) us = None ->
  let run := updatePassword prev formData (boot us sid f) in
  (exists e, fst run = Thrown e)
  /\ (f 0 = false -> fst run = Thrown TypeError)
  /\ log (snd run) = [call_findUnique (where_id sid)]
  /\ users (snd run) = us
  /\ (JS.truthy_opt_number sid = false ->
      withdrawUser prev formData (boot us sid f)
      = (Returned (result_formErrors ["로그인이 필요합니다."]), boot us sid f)).
Proof.
  intros Hok Hu run. subst run.
  unfold updatePassword. exec. rewrite Hok. exec.
  destruct (f 0); cbn; rewrite ?Hu; cbn.
  - repeat split; eauto; try discriminate.
    intros Hs. unfold withdrawUser. exec. now rewrite Hs.
  - repeat split; eauto.
    intros Hs. unfold withdrawUser. exec. now rewrite Hs.
Qed.

(** ** The shape of the results *)

Lemma pushFieldError_nonempty field m fe : Zod.pushFieldError field m fe <> [].
Proof. destruct fe as [|[k ms] rest]; cbn; [|destruct (String.eqb k field)]; discriminate. Qed.

Lemma flatten_loop_fields issues formErrs fieldErrs :
  Forall at_field issues ->
  fst (Zod.flatten_loop issues formErrs fieldErrs) = formErrs
  /\ (issues <> [] \/ fieldErrs <> [] ->
      snd (Zod.flatten_loop issues formErrs fieldErrs) <> []).
Proof.
  intros Hall. revert formErrs fieldErrs.
  induction Hall as [|i issues Hi _ IH]; intros formErrs fieldErrs; cbn.
  - split; [reflexivity|]. now intros [E|E].
  - unfold at_field in Hi. destruct (Zod.path i) as [|firstEl rest]; [congruence|].
    destruct (IH formErrs (Zod.pushFieldError firstEl (Zod.issue_message i) fieldErrs))
      as [E1 E2].
    split; [exact E1|]. intros _. apply E2. right. apply pushFieldError_nonempty.
Qed.

(** Issues that all sit at a field flatten to field errors only. *)
Lemma flatten_only_fields issues :
  issues <> [] -> Forall at_field issues -> populates_exactly_one (Zod.flatten issues).
Proof.
  intros Hne Hall. destruct (flatten_loop_fields [] [] Hall) as [E1 E2].
  unfold Zod.flatten, populates_exactly_one, populated_count,
    populated_message, populated_fieldErrors, populated_formErrors.
  destruct (Zod.flatten_loop issues [] []) as [formErrs fieldErrs]. cbn in *.
  subst formErrs. destruct fieldErrs; [|reflexivity].
  exfalso. apply E2; auto.
Qed.

Lemma password_validation_failure (data : PasswordInput) (issues : list Zod.ZodIssue) :
  passwordUpdateSchema_safeParse data = Zod.failure issues ->
  issues <> [] /\ Forall at_field issues.
Proof.
  destruct data as [c n k].
  unfold passwordUpdateSchema_safeParse, password_object.
  destruct c as [| |c|], n as [| |n|], k as [| |k|]; unfold Zod.refine; cbn;
    repeat match goal with
      | |- context [if ?b then _ else _] => destruct b eqn:?; cbn
      end;
    try (intros E; discriminate E);
    intros [= <-]; (split; [discriminate|]);
    repeat (apply Forall_cons || apply Forall_nil); discriminate.
Qed.

Lemma profile_object_issues (data : ProfileInput) :
  Forall at_field (snd (profile_object data))
  /\ match fst (profile_object data) with
     | Zod.OK _ => True
     | _ => snd (profile_object data) <> []
     end.
Proof.
  destruct data as [e u b]. unfold profile_object.
  destruct e, u, b; cbn;
    repeat match goal with
      | |- context [if ?c then _ else _] => destruct c; cbn
      end;
    (split; [repeat (apply Forall_cons || apply Forall_nil) | ]);
    try discriminate; exact I.
Qed.

Lemma profile_superRefine_issues (v : ProfileData) (rt : Runtime) added :
  fst (profile_superRefine v rt) = Returned added -> Forall at_field added.
Proof.
  unfold profile_superRefine. exec.
  repeat match goal with
    | |- context [find ?p ?l] => destruct (find p l); cbn
    | |- context [if ?c then _ else _] => destruct c; cbn
    end;
    try (intros E; discriminate E);
    intros [= <-];
    repeat (apply Forall_cons || apply Forall_nil); discriminate.
Qed.

Lemma profile_validation_failure (data : ProfileInput) (rt : Runtime) issues :
  fst (profileUpdateSchema_safeParseAsync data rt) = Returned (Zod.failure issues) ->
  issues <> [] /\ Forall at_field issues.
Proof.
  unfold profileUpdateSchema_safeParseAsync.
  destruct (profile_object_issues data) as [Hall Hne].
  destruct (profile_object data) as [res found]. cbn [fst snd] in Hall, Hne.
  destruct res as [|v|v]; exec.
  - intros [= <-]. now split.
  - pose proof (@profile_superRefine_issues v rt) as Hadd.
    destruct (profile_superRefine v rt) as [[added|ex] rt1]; cbn in *;
      [|intros E; discriminate E].
    intros [= <-]. split.
    + destruct found; [congruence|discriminate].
    + apply Forall_app. split; [assumption | now apply Hadd].
  - pose proof (@profile_superRefine_issues v rt) as Hadd.
    destruct (profile_superRefine v rt) as [[added|ex] rt1]; cbn in *;
      [|intros E; discriminate E].
    destruct added as [|a added]; cbn; [intros E; discriminate E|].
    intros [= <-]. split.
    + destruct found; discriminate.
    + apply Forall_app. split; [assumption | now apply Hadd].
Qed.

(** Whatever one of the three actions returns populates exactly one of
    message, field errors and form errors; [withdrawUser] always returns. *)
Theorem returned_result_populates_exactly_one prev formData rt :
  (forall r, fst (updateProfile prev formData rt) = Returned r -> populates_exactly_one r)
  /\ (forall r, fst (updatePassword prev formData rt) = Returned r ->
                populates_exactly_one r)
  /\ (exists r, fst (withdrawUser prev formData rt) = Returned r
                /\ populates_exactly_one r).
Proof.
  split; [|split].
  - intros r. unfold updateProfile. exec.
    pose proof (@profile_validation_failure (profile_form_data formData) rt) as Hfail.
    destruct (profileUpdateSchema_safeParseAsync (profile_form_data formData) rt)
      as [[[d|issues]|ex] rt1]; cbn in *.
    + repeat match goal with
        | |- context [find ?p ?l] => destruct (find p l); cbn
        | |- context [if ?c then _ else _] => destruct c; cbn
        end;
        intros [= <-]; reflexivity.
    + intros [= <-]. destruct (Hfail issues eq_refl). now apply flatten_only_fields.
    + intros E; discriminate E.
  - intros r. unfold updatePassword. exec.
    pose proof (@password_validation_failure (password_form_data formData)) as Hfail.
    destruct (passwordUpdateSchema_safeParse (password_form_data formData))
      as [d|issues]; cbn in *.
    + repeat match goal with
        | |- context [find ?p ?l] => destruct (find p l); cbn
        | |- context [if ?c then _ else _] => destruct c; cbn
        end;
        try (intros E; discriminate E);
        intros [= <-]; reflexivity.
    + intros [= <-]. destruct (Hfail issues eq_refl). now apply flatten_only_fields.
  - unfold withdrawUser. exec.
    repeat match goal with
      | |- context [find ?p ?l] => destruct (find p l); cbn
      | |- context [if ?c then _ else _] => destruct c; cbn
      end;
      eexists; (split; [reflexivity|reflexivity]).
Qed.
(** ** When an action throws *)

Lemma profile_superRefine_throws (v : ProfileData) (rt : Runtime) (e : Exception) :
  fst (profile_superRefine v rt) = Thrown e ->
  e = StorageError /\ exists n, n < 3 /\ faults rt (n + calls rt) = true.
Proof.
  unfold profile_superRefine. exec.
  destruct (faults rt (calls rt)) eqn:F0; cbn.
  { intros [= <-]. split; [reflexivity|]. exists 0. split; [lia | exact F0]. }
  destruct (find (matches (where_id (session_id rt))) (users rt)); cbn;
    repeat match goal with
      | |- context [if faults ?r ?n then _ else _] => destruct (faults r n) eqn:?; cbn
      | |- context [find ?p ?l] => destruct (find p l); cbn
      | |- context [if ?c then _ else _] => destruct c; cbn
      end;
    intros E; try discriminate E; injection E as <-;
    (split; [reflexivity|]);
    first [ exists 1; split; [lia | assumption] | exists 2; split; [lia | assumption] ].
Qed.

(** The exceptions that leave the actions all come from the code outside the
    [try] blocks: [updatePassword] throws only on a form that passed
    validation, when the lookup raised or found no row; [updateProfile]
    throws only when one of the lookups of validation raised. *)
Theorem throws_only_outside_try prev formData rt e :
  (fst (updatePassword prev formData rt) = Thrown e ->
   (exists d, passwordUpdateSchema_safeParse (password_form_data formData) = Zod.success d)
   /\ ((e = StorageError /\ faults rt (calls rt) = true)
       \/ (e = TypeError
           /\ find (matches (where_id (session_id rt))) (users rt) = None)))
  /\ (fst (updateProfile prev formData rt) = Thrown e ->
      e = StorageError /\ exists n, n < 3 /\ faults rt (n + calls rt) = true).
Proof.
  split.
  - unfold updatePassword. exec.
    destruct (passwordUpdateSchema_safeParse (password_form_data formData))
      as [d|issues]; cbn; [|intros E; discriminate E].
    destruct (faults rt (calls rt)) eqn:F0; cbn.
    { intros [= <-]. split; [now exists d|]. left. now split. }
    destruct (find (matches (where_id (session_id rt))) (users rt)) eqn:Hu; cbn.
    + repeat match goal with
        | |- context [find ?p ?l] => destruct (find p l); cbn
        | |- context [if ?c then _ else _] => destruct c; cbn
        end;
        intros E; discriminate E.
    + intros [= <-]. split; [now exists d|]. right. now split.
  - unfold updateProfile, profileUpdateSchema_safeParseAsync. exec.
    destruct (profile_object (profile_form_data formData)) as [res issues].
    destruct res as [|v|v]; exec.
    + cbn. intros E; discriminate E.
    + pose proof (@profile_superRefine_throws v rt) as Ht.
      destruct (profile_superRefine v rt) as [[added|ex] rt1]; cbn in *;
        [intros E; discriminate E | intros [= <-]; now apply Ht].
    + pose proof (@profile_superRefine_throws v rt) as Ht.
      destruct (profile_superRefine v rt) as [[added|ex] rt1]; cbn in *;
        [|intros [= <-]; now apply Ht].
      destruct added; cbn;
        repeat match goal with
          | |- context [find ?p ?l] => destruct (find p l); cbn
          | |- context [if ?c then _ else _] => destruct c; cbn
          end;
        intros E; discriminate E.
Qed.

End Properties.

(* ================================================================== *)
(** * The properties at concrete inputs *)
(* ================================================================== *)

(** C2. Every invocation is claimed to end with a result that populates
    exactly one of message, field errors and form errors. Here is one that
    ends with no result at all: a valid password form sent under a session
    whose user has been deleted. The lookup finds no row and [user!.password]
    throws outside any [try]. *)
Theorem updatePassword_returns_no_result :
  let run :=
    @updatePassword Fixture.imports Fixture.idle
      (Fixture.password_form "hunter22" "abcdefg1" "abcdefg1")
      (boot Fixture.table (Some 7%Z) Fixture.no_fault) in
  fst run = Thrown TypeError
  /\ log (snd run) = [call_findUnique (where_id (Some 7%Z))]
  /\ ~ (exists r, fst run = Returned r /\ populates_exactly_one r).
Proof.
  split; [reflexivity|]. split; [reflexivity|].
  intros (r & E & _). discriminate E.
Qed.

(** The same form under the session of a user who exists: the password is
    changed and the message is returned. *)
Example updatePassword_run :
  let run :=
    @updatePassword Fixture.imports Fixture.idle
      (Fixture.password_form "hunter22" "abcdefg1" "abcdefg1")
      (boot Fixture.table (Some 2%Z) Fixture.no_fault) in
  fst run = Returned (result_message "비밀번호가 성공적으로 변경되었습니다.")
  /\ option_map user_password (find (matches (where_id (Some 2%Z))) (users (snd run)))
     = Some "$2b$abcdefg1".
Proof. split; reflexivity. Qed.

Lemma withdrawUser_delete_then_destroy_witness :
  let run :=
    @withdrawUser Fixture.imports Fixture.idle [("password", EntryString "hunter22")]
      (boot Fixture.table (Some 2%Z) (Fixture.fault_at 1)) in
  fst run = Returned (result_formErrors ["회원 탈퇴 중 오류가 발생했습니다."])
  /\ ~ In call_session_destroy (log (snd run))
  /\ users (snd run) = Fixture.table
  /\ session_id (snd run) = Some 2%Z.
Proof.
  apply (@withdrawUser_delete_then_destroy Fixture.imports Fixture.idle
           [("password", EntryString "hunter22")] Fixture.table 2%Z
           (Fixture.fault_at 1) Fixture.bob "hunter22");
    try (vm_compute; reflexivity); discriminate.
Defined.

(** The same withdrawal when the delete goes through. *)
Example withdrawUser_run :
  let run :=
    @withdrawUser Fixture.imports Fixture.idle [("password", EntryString "hunter22")]
      (boot Fixture.table (Some 2%Z) Fixture.no_fault) in
  fst run = Returned (result_message "회원 탈퇴가 완료되었습니다.")
  /\ log (snd run) = [call_findUnique (where_id (Some 2%Z));
                      call_bcrypt_compare "hunter22" "$2b$hunter22";
                      call_delete (where_id (Some 2%Z));
                      call_session_destroy]
  /\ users (snd run) = [Fixture.alice]
  /\ session_id (snd run) = None.
Proof. repeat split; reflexivity. Qed.

Lemma profile_validation_uniqueness_lookups_witness :
  @String_prototype_toLowerCase Fixture.imports
    (@String_prototype_trim Fixture.imports " Bob@X.com ") = user_email Fixture.bob
  /\ ~ In (call_findUnique (where_email "bob@x.com"))
         (log (snd (@profileUpdateSchema_safeParseAsync Fixture.imports
                      (@profile_form_data (Fixture.profile_form " Bob@X.com " "bobby" ""))
                      (boot Fixture.table (Some 2%Z) Fixture.no_fault)))).
Proof.
  split; [reflexivity|].
  apply (proj1 (@profile_validation_uniqueness_lookups Fixture.imports
                  (@profile_form_data (Fixture.profile_form " Bob@X.com " "bobby" ""))
                  Fixture.table (Some 2%Z) Fixture.no_fault)
               Fixture.bob " Bob@X.com ");
    vm_compute; reflexivity.
Defined.

Lemma updatePassword_wrong_current_witness :
  let run :=
    @updatePassword Fixture.imports Fixture.idle
      (Fixture.password_form "guess" "abcdefg1" "abcdefg1")
      (boot Fixture.table (Some 2%Z) Fixture.no_fault) in
  fst run
  = Returned (result_fieldErrors "currentPassword" ["현재 비밀번호가 일치하지 않습니다."])
  /\ filter is_mutation (log (snd run)) = []
  /\ filter is_hash (log (snd run)) = []
  /\ users (snd run) = Fixture.table.
Proof.
  pose proof (@updatePassword_wrong_current Fixture.imports Fixture.idle
                (Fixture.password_form "guess" "abcdefg1" "abcdefg1")
                Fixture.table (Some 2%Z) Fixture.no_fault
                {| currentPassword := "guess"; newPassword := "abcdefg1";
                   confirmPassword := "abcdefg1" |}
                Fixture.bob) as P.
  cbv zeta in P.
  destruct P as (_ & P1 & _ & P2 & P3 & P4); try (vm_compute; reflexivity).
  repeat split; assumption.
Defined.

Lemma updateProfile_invalidations_witness :
  exists old new,
    option_map user_username (find (matches (where_id (Some 2%Z))) Fixture.table) = Some old
    /\ old = "bob" /\ new = "robert"
    /\ invalidations
         (log (snd (@updateProfile Fixture.imports Fixture.idle
                      (Fixture.profile_form "bob@x.com" "robert" "builder")
                      (boot Fixture.table (Some 2%Z) Fixture.no_fault))))
       = [call_revalidateTag "user-profile"; call_revalidatePath "/" layout;
          call_revalidatePath "/users/bob" page;
          call_revalidatePath "/users/robert" page;
          call_revalidatePath "/tweets" layout;
          call_revalidatePath "/search" page].
Proof.
  destruct (@updateProfile_invalidations Fixture.imports Fixture.idle
              (Fixture.profile_form "bob@x.com" "robert" "builder")
              Fixture.table (Some 2%Z) Fixture.no_fault
              (result_message "프로필이 성공적으로 변경되었습니다.")
              (snd (@updateProfile Fixture.imports Fixture.idle
                      (Fixture.profile_form "bob@x.com" "robert" "builder")
                      (boot Fixture.table (Some 2%Z) Fixture.no_fault)))
              "프로필이 성공적으로 변경되었습니다.")
    as (old & new & Ho & Hn & _ & Hchanged); try (vm_compute; reflexivity).
  exists old, new.
  vm_compute in Ho, Hn. injection Ho as <-. injection Hn as <-.
  split; [reflexivity|]. split; [reflexivity|]. split; [reflexivity|].
  rewrite Hchanged; [reflexivity | discriminate].
Defined.

Lemma profile_validation_scenario_witness :
  log (snd (@profileUpdateSchema_safeParseAsync Fixture.imports
              (@profile_form_data
                 [("email", EntryString "A@X.com"); ("username", EntryString "bob");
                  ("bio", EntryString "")])
              (boot Fixture.table (Some 2%Z) Fixture.no_fault)))
  = [call_findUnique (where_id (Some 2%Z)); call_findUnique (where_email "a@x.com")].
Proof.
  apply (@profile_validation_scenario Fixture.imports Fixture.table 2%Z
           Fixture.no_fault Fixture.bob);
    try (vm_compute; reflexivity); discriminate.
Defined.

Lemma updatePassword_confirm_mismatch_witness :
  exists issues msgs,
    @passwordUpdateSchema_safeParse Fixture.imports
      (password_form_data (Fixture.password_form "hunter22" "abcdefg1" "abcdefg2"))
    = Zod.failure issues
    /\ @updatePassword Fixture.imports Fixture.idle
         (Fixture.password_form "hunter22" "abcdefg1" "abcdefg2")
         (boot Fixture.table (Some 2%Z) Fixture.no_fault)
       = (Returned (Zod.flatten issues), boot Fixture.table (Some 2%Z) Fixture.no_fault)
    /\ Zod.flatten issues
       = {| message := None;
            fieldErrors := Some [("confirmPassword", msgs)];
            formErrors := Some [] |}
    /\ msgs <> [].
Proof.
  apply (@updatePassword_confirm_mismatch Fixture.imports Fixture.idle
           (Fixture.password_form "hunter22" "abcdefg1" "abcdefg2")
           (boot Fixture.table (Some 2%Z) Fixture.no_fault) "hunter22" "abcdefg1");
    [ reflexivity | reflexivity | vm_compute; lia | reflexivity | discriminate ].
Defined.

Lemma withdrawUser_empty_password_witness :
  @withdrawUser Fixture.imports Fixture.idle [("password", EntryString "")]
    (boot Fixture.table (Some 2%Z) Fixture.no_fault)
  = (Returned (result_fieldErrors "password" ["비밀번호를 입력해주세요."]),
     boot Fixture.table (Some 2%Z) Fixture.no_fault).
Proof.
  apply (@withdrawUser_empty_password Fixture.imports Fixture.idle
           [("password", EntryString "")] Fixture.table 2%Z Fixture.no_fault).
  - discriminate.
  - right. reflexivity.
Defined.

Lemma updatePassword_missing_user_throws_witness :
  exists e,
    fst (@updatePassword Fixture.imports Fixture.idle
           (Fixture.password_form "hunter22" "abcdefg1" "abcdefg1")
           (boot Fixture.table None Fixture.no_fault))
    = Thrown e.
Proof.
  apply (@updatePassword_missing_user_throws Fixture.imports Fixture.idle
           (Fixture.password_form "hunter22" "abcdefg1" "abcdefg1")
           Fixture.table None Fixture.no_fault
           {| currentPassword := "hunter22"; newPassword := "abcdefg1";
              confirmPassword := "abcdefg1" |});
    vm_compute; reflexivity.
Defined.

Lemma updateProfile_missing_bio_witness :
  exists u',
    find (matches (where_id (Some 2%Z)))
         (users (snd (@updateProfile Fixture.imports Fixture.idle
                        [("email", EntryString "bob@x.com"); ("username", EntryString "bob")]
                        (boot Fixture.table (Some 2%Z) Fixture.no_fault))))
    = Some u'
    /\ user_bio Fixture.bob = Some "builder"
    /\ user_bio u' = Some "".
Proof.
  destruct (@updateProfile_missing_bio Fixture.imports Fixture.idle
              [("email", EntryString "bob@x.com"); ("username", EntryString "bob")]
              Fixture.table (Some 2%Z) Fixture.no_fault
              (result_message "프로필이 성공적으로 변경되었습니다.")
              (snd (@updateProfile Fixture.imports Fixture.idle
                      [("email", EntryString "bob@x.com"); ("username", EntryString "bob")]
                      (boot Fixture.table (Some 2%Z) Fixture.no_fault)))
              "프로필이 성공적으로 변경되었습니다.")
    as (_ & u & u' & d & _ & _ & _ & Hfind & Hbio); try (vm_compute; reflexivity).
  exists u'. split; [exact Hfind|]. split; [reflexivity | exact Hbio].
Defined.

(* ================================================================== *)
(** * Further behaviour of the actions *)
(* ================================================================== *)

Unset Implicit Arguments.

Ltac elim_in Hin :=
  cbn in Hin;
  repeat match type of Hin with
    | _ \/ _ => destruct Hin as [Hin|Hin]
    | False => contradiction
    end;
  try discriminate Hin.

Section Behaviour.
Context `{Imports}.

(** ** The datastore *)

Lemma violates_unique_keys (u u' : User) (us : list User) :
  user_id u' = user_id u -> user_email u' = user_email u ->
  user_username u' = user_username u ->
  violates_unique u' us = violates_unique u us.
Proof. intros Hi He Hn. unfold violates_unique. now rewrite Hi, He, Hn. Qed.

Lemma replace_user_keeps_others (u' o : User) (us : list User) :
  In o us -> user_id o <> user_id u' -> In o (replace_user u' us).
Proof.
  intros Hin Hne. unfold replace_user. apply in_map_iff. exists o. split; [|exact Hin].
  apply Z.eqb_neq in Hne. now rewrite Hne.
Qed.

Lemma updatePassword_commits prev formData us sid f d u :
  passwordUpdateSchema_safeParse (password_form_data formData) = Zod.success d ->
  find (matches (where_id sid)) us = Some u ->
  violates_unique u us = false ->
  f 0 = false ->
  f 1 = false ->
  bcrypt_compareSync (currentPassword d) (user_password u) = true ->
  updatePassword prev formData (boot us sid f)
  = (Returned (result_message "비밀번호가 성공적으로 변경되었습니다."),
     {| users := replace_user
                   (apply_update
                      (password_update_data (bcrypt_hashSync (newPassword d) 12)) u) us;
        session_id := sid; faults := f; calls := 2;
        log := [call_findUnique (where_id sid);
                call_bcrypt_compare (currentPassword d) (user_password u);
                call_bcrypt_hash (newPassword d) 12;
                call_update (where_id sid)
                  (password_update_data (bcrypt_hashSync (newPassword d) 12))] |}).
Proof.
  intros Hok Hu Huniq Hf0 Hf1 Hcmp.
  unfold updatePassword. exec. rewrite Hok. exec.
  rewrite Hf0. cbn. rewrite Hu. cbn. rewrite Hcmp. cbn. rewrite Hf1. cbn.
  rewrite Hu. cbn.
  rewrite (violates_unique_keys u
             (apply_update (password_update_data (bcrypt_hashSync (newPassword d) 12)) u)
             us) by reflexivity.
  rewrite Huniq. reflexivity.
Qed.

(** X1. A valid form, the actor's row read, the current password matching,
    the update going through: the calls are lookup, comparison, hash of the
    new password with cost 12 and one update keyed by the session id that
    carries that hash; afterwards the actor's row holds the hash and is
    otherwise as before, the other rows are still there, the session stands
    and the success message is returned. *)
Theorem updatePassword_success prev formData us sid f d u :
  passwordUpdateSchema_safeParse (password_form_data formData) = Zod.success d ->
  find (matches (where_id sid)) us = Some u ->
  violates_unique u us = false ->
  f 0 = false ->
  f 1 = false ->
  bcrypt_compareSync (currentPassword d) (user_password u) = true ->
  let run := updatePassword prev formData (boot us sid f) in
  let hashed := bcrypt_hashSync (newPassword d) 12 in
  fst run = Returned (result_message "비밀번호가 성공적으로 변경되었습니다.")
  /\ log (snd run)
     = [call_findUnique (where_id sid);
        call_bcrypt_compare (currentPassword d) (user_password u);
        call_bcrypt_hash (newPassword d) 12;
        call_update (where_id sid) (password_update_data hashed)]
  /\ find (matches (where_id sid)) (users (snd run))
     = Some {| user_id := user_id u; user_email := user_email u;
               user_username := user_username u; user_bio := user_bio u;
               user_password := hashed |}
  /\ (forall o, In o us -> user_id o <> user_id u -> In o (users (snd run)))
  /\ session_id (snd run) = sid.
Proof.
  intros Hok Hu Huniq Hf0 Hf1 Hcmp run hashed. subst run hashed.
  rewrite (updatePassword_commits prev formData us sid f d u Hok Hu Huniq Hf0 Hf1 Hcmp). cbn.
  split; [reflexivity|]. split; [reflexivity|]. split; [|split; [|reflexivity]].
  - now apply find_replace_user with (u := u).
  - intros o Hin Hne. now apply replace_user_keeps_others.
Qed.

(** X2. The same run when the update raises: the hash has been computed and
    the update attempted, the error is logged to the console, the generic
    form error is returned and table and session are as they were. *)
Theorem updatePassword_update_fails prev formData us sid f d u :
  passwordUpdateSchema_safeParse (password_form_data formData) = Zod.success d ->
  find (matches (where_id sid)) us = Some u ->
  f 0 = false ->
  f 1 = true ->
  bcrypt_compareSync (currentPassword d) (user_password u) = true ->
  let run := updatePassword prev formData (boot us sid f) in
  fst run = Returned (result_formErrors ["비밀번호 변경 중 오류가 발생했습니다."])
  /\ log (snd run)
     = [call_findUnique (where_id sid);
        call_bcrypt_compare (currentPassword d) (user_password u);
        call_bcrypt_hash (newPassword d) 12;
        call_update (where_id sid)
          (password_update_data (bcrypt_hashSync (newPassword d) 12));
        call_console_error "Password update error:"]
  /\ users (snd run) = us
  /\ session_id (snd run) = sid.
Proof.
  intros Hok Hu Hf0 Hf1 Hcmp run. subst run.
  unfold updatePassword. exec. rewrite Hok. exec.
  rewrite Hf0. cbn. rewrite Hu. cbn. rewrite Hcmp. cbn. rewrite Hf1. cbn.
  repeat split; reflexivity.
Qed.

(** X3. Whatever the form and the runtime, [updatePassword] writes nothing but
    the bcrypt hash (cost 12) of the form's new password, under the session
    id; it deletes nothing, does not destroy the session and sends no
    invalidation signal. *)
Theorem updatePassword_footprint prev formData us sid f :
  let run := updatePassword prev formData (boot us sid f) in
  (forall w d0, In (call_update w d0) (log (snd run)) ->
     w = where_id sid
     /\ exists n, FormData_get formData "newPassword" = Some (EntryString n)
                  /\ d0 = password_update_data (bcrypt_hashSync n 12))
  /\ (forall w, ~ In (call_delete w) (log (snd run)))
  /\ ~ In call_session_destroy (log (snd run))
  /\ invalidations (log (snd run)) = []
  /\ session_id (snd run) = sid.
Proof.
  intros run. subst run.
  unfold updatePassword. exec.
  destruct (passwordUpdateSchema_safeParse (password_form_data formData))
    as [d|issues] eqn:Hok; exec.
  2: { cbn. split; [intros w d0 []|]. split; [intros w []|]. split; [intros []|].
       split; reflexivity. }
  destruct (password_validation_success _ Hok) as (_ & Hn & _).
  apply entry_value_str in Hn.
  repeat match goal with
    | |- context [find ?p ?l] => destruct (find p l); cbn
    | |- context [if ?c then _ else _] => destruct c; cbn
    end;
    ((split; [|split; [|split; [|split; reflexivity]]]);
     [ intros w d0 Hin; elim_in Hin; injection Hin as <- <-; (split; [reflexivity | eauto])
     | intros w Hin; elim_in Hin
     | intros Hin; elim_in Hin ]).
Qed.

(** ** What [flatten] keeps *)

Lemma pushFieldError_new field m fe :
  exists msgs, In (field, msgs) (Zod.pushFieldError field m fe) /\ In m msgs.
Proof.
  induction fe as [|[k ms] fe IH]; cbn.
  - exists [m]. cbn. auto.
  - destruct (String.eqb k field) eqn:E.
    + apply String.eqb_eq in E. subst k. exists (ms ++ [m]). split; [now left|].
      apply in_or_app. right. now left.
    + destruct IH as (msgs & Hin & Hm). exists msgs. split; [now right | exact Hm].
Qed.

Lemma pushFieldError_keeps field m fe k ms x :
  In (k, ms) fe -> In x ms ->
  exists ms', In (k, ms') (Zod.pushFieldError field m fe) /\ In x ms'.
Proof.
  induction fe as [|[k0 ms0] fe IH]; cbn; [intros []|].
  intros [E|Hin] Hx.
  - injection E as -> ->. destruct (String.eqb k field).
    + exists (ms ++ [m]). split; [now left | apply in_or_app; now left].
    + exists ms. split; [now left | exact Hx].
  - destruct (String.eqb k0 field).
    + exists ms. split; [now right | exact Hx].
    + destruct (IH Hin Hx) as (ms' & Hin' & Hx').
      exists ms'. split; [now right | exact Hx'].
Qed.

Lemma flatten_loop_keeps issues formErrs fieldErrs k ms x :
  In (k, ms) fieldErrs -> In x ms ->
  exists ms', In (k, ms') (snd (Zod.flatten_loop issues formErrs fieldErrs)) /\ In x ms'.
Proof.
  revert formErrs fieldErrs ms.
  induction issues as [|i issues IH]; intros formErrs fieldErrs ms Hin Hx; cbn.
  - eauto.
  - destruct (Zod.path i) as [|firstEl rest].
    + eapply IH; eauto.
    + destruct (pushFieldError_keeps firstEl (Zod.issue_message i) _ _ _ _ Hin Hx)
        as (ms' & Hin' & Hx').
      eapply IH; eauto.
Qed.

Lemma flatten_loop_has issues formErrs fieldErrs i field rest :
  In i issues -> Zod.path i = field :: rest ->
  exists msgs, In (field, msgs) (snd (Zod.flatten_loop issues formErrs fieldErrs))
               /\ In (Zod.issue_message i) msgs.
Proof.
  revert formErrs fieldErrs.
  induction issues as [|j issues IH]; intros formErrs fieldErrs Hin Hp; [destruct Hin|].
  destruct Hin as [-> | Hin]; cbn.
  - rewrite Hp.
    destruct (pushFieldError_new field (Zod.issue_message i) fieldErrs)
      as (msgs & Hin & Hm).
    eapply flatten_loop_keeps; eauto.
  - destruct (Zod.path j); now apply IH.
Qed.

(** An issue at a field is reported under that field. *)
Lemma flatten_has issues i field rest :
  In i issues -> Zod.path i = field :: rest ->
  exists fe msgs, fieldErrors (Zod.flatten issues) = Some fe
                  /\ In (field, msgs) fe /\ In (Zod.issue_message i) msgs.
Proof.
  intros Hin Hp.
  destruct (flatten_loop_has _ [] [] _ _ _ Hin Hp) as (msgs & Hfe & Hm).
  unfold Zod.flatten. destruct (Zod.flatten_loop issues [] []) as [formErrs fieldErrs].
  cbn in *. eauto.
Qed.

(** ** [updatePassword], the form *)

(** X4. A new password without a digit: the action returns at once, the
    runtime untouched, with no message and with the no-digit message among
    the errors of the field [newPassword]. *)
Theorem updatePassword_no_digit prev formData rt n :
  FormData_get formData "newPassword" = Some (EntryString n) ->
  PATTERNS_CONTAINS_NUMBER ACCOUNT_VALIDATION n = false ->
  exists r fe msgs,
    updatePassword prev formData rt = (Returned r, rt)
    /\ message r = None
    /\ fieldErrors r = Some fe
    /\ In ("newPassword", msgs) fe
    /\ In (PASSWORD_NO_NUMBER ACCOUNT_VALIDATION) msgs.
Proof.
  intros Hn Hnum.
  set (i := {| Zod.path := ["newPassword"];
               Zod.issue_message := PASSWORD_NO_NUMBER ACCOUNT_VALIDATION |}).
  assert (Hfail : exists issues,
             passwordUpdateSchema_safeParse (password_form_data formData)
             = Zod.failure issues /\ In i issues).
  { unfold passwordUpdateSchema_safeParse, password_object, password_form_data,
      Zod.refine.
    rewrite Hn. cbn. rewrite Hnum. cbn.
    destruct (FormData_get formData "currentPassword") as [[c|c]|];
      destruct (FormData_get formData "confirmPassword") as [[k|k]|]; cbn;
      repeat match goal with
        | |- context [if ?b then _ else _] => destruct b; cbn
        end;
      eexists; (split; [reflexivity|]); subst i; cbn; auto 10. }
  destruct Hfail as (issues & Hfail & Hin).
  destruct (flatten_has _ _ _ _ Hin eq_refl) as (fe & msgs & Hfe & Hk & Hm).
  exists (Zod.flatten issues), fe, msgs.
  unfold updatePassword. exec. rewrite Hfail.
  repeat split; try assumption. apply message_flatten.
Qed.


(** X6. A field missing from the form reaches the schema as [null], not as
    [undefined]: the error under it is the invalid-type message (zod's
    default for the fields without one), never the [required_error] text; the
    action returns at once, the runtime untouched. *)
Theorem updatePassword_absent_field prev formData rt :
  (FormData_get formData "currentPassword" = None
   \/ FormData_get formData "newPassword" = None
   \/ FormData_get formData "confirmPassword" = None) ->
  exists r fe,
    updatePassword prev formData rt = (Returned r, rt)
    /\ fieldErrors r = Some fe
    /\ (FormData_get formData "currentPassword" = None ->
        In ("currentPassword", ["Expected string, received null"]) fe)
    /\ (FormData_get formData "newPassword" = None ->
        In ("newPassword", [PASSWORD_INVALID_TYPE ACCOUNT_VALIDATION]) fe)
    /\ (FormData_get formData "confirmPassword" = None ->
        In ("confirmPassword", ["Expected string, received null"]) fe).
Proof.
  intros Habsent.
  unfold updatePassword. exec.
  unfold passwordUpdateSchema_safeParse, password_object, password_form_data, Zod.refine.
  destruct (FormData_get formData "currentPassword") as [[c|c]|];
    destruct (FormData_get formData "newPassword") as [[n|n]|];
    destruct (FormData_get formData "confirmPassword") as [[k|k]|];
    try (exfalso; destruct Habsent as [E|[E|E]]; discriminate E);
    cbn;
    repeat match goal with
      | |- context [if ?b then _ else _] => destruct b; cbn
      end;
    do 2 eexists; (split; [reflexivity|]); (split; [reflexivity|]);
    (split; [|split]); intros E; try discriminate E; cbn; auto 6.
Qed.

(** ** [withdrawUser] *)

(** X7. [withdrawUser] is all or nothing: either it returns the success
    message, the actor's row is removed and the session destroyed, or it
    returns something else, table and session are as they were and the
    session was never destroyed. *)
Theorem withdrawUser_all_or_nothing prev formData us sid f :
  let run := withdrawUser prev formData (boot us sid f) in
  (fst run = Returned (result_message "회원 탈퇴가 완료되었습니다.")
   /\ (exists uid, sid = Some uid /\ users (snd run) = remove_user uid us)
   /\ session_id (snd run) = None)
  \/ (fst run <> Returned (result_message "회원 탈퇴가 완료되었습니다.")
      /\ users (snd run) = us
      /\ session_id (snd run) = sid
      /\ ~ In call_session_destroy (log (snd run))).
Proof.
  intros run. subst run. unfold withdrawUser. exec.
  destruct (JS.truthy_opt_number sid); cbn.
  2: { right. repeat split; try discriminate. intros []. }
  destruct (JS.truthy_opt_string (entry_toString (FormData_get formData "password"))); cbn.
  2: { right. repeat split; try discriminate. intros []. }
  destruct (f 0); cbn.
  { right. repeat split; try discriminate. intros Hin. elim_in Hin. }
  destruct (find (matches (where_id sid)) us) as [u|] eqn:Hu; cbn.
  2: { right. repeat split; try discriminate. intros Hin. elim_in Hin. }
  destruct (bcrypt_compareSync _ _); cbn.
  2: { right. repeat split; try discriminate. intros Hin. elim_in Hin. }
  destruct (f 1); cbn.
  { right. repeat split; try discriminate. intros Hin. elim_in Hin. }
  rewrite Hu. cbn. left.
  split; [reflexivity|]. split; [|reflexivity].
  exists (user_id u). split; [now apply find_matches_id with (us := us) | reflexivity].
Qed.

(** X8. A password that does not match the stored hash: an error on the
    field [password], after the lookup and the comparison and nothing else. *)
Theorem withdrawUser_wrong_password prev formData us uid f u pw :
  uid <> 0%Z ->
  entry_toString (FormData_get formData "password") = Some pw ->
  pw <> "" ->
  find (matches (where_id (Some uid))) us = Some u ->
  f 0 = false ->
  bcrypt_compareSync pw (user_password u) = false ->
  withdrawUser prev formData (boot us (Some uid) f)
  = (Returned (result_fieldErrors "password" ["비밀번호가 일치하지 않습니다."]),
     {| users := us; session_id := Some uid; faults := f; calls := 1;
        log := [call_findUnique (where_id (Some uid));
                call_bcrypt_compare pw (user_password u)] |}).
Proof.
  intros Hid Hpw Hne Hu Hf0 Hcmp.
  unfold withdrawUser. exec. cbn [JS.truthy_opt_number negb].
  apply Z.eqb_neq in Hid. rewrite Hid, Hpw. cbn.
  rewrite (truthy_string_nonempty Hne). cbn.
  rewrite Hf0. cbn. rewrite Hu. cbn. rewrite Hcmp. reflexivity.
Qed.

(** X9. No row for the session id: the "not found" form error, after the
    lookup and nothing else; no comparison is made. *)
Theorem withdrawUser_user_not_found prev formData us uid f pw :
  uid <> 0%Z ->
  entry_toString (FormData_get formData "password") = Some pw ->
  pw <> "" ->
  find (matches (where_id (Some uid))) us = None ->
  f 0 = false ->
  withdrawUser prev formData (boot us (Some uid) f)
  = (Returned (result_formErrors ["사용자를 찾을 수 없습니다."]),
     {| users := us; session_id := Some uid; faults := f; calls := 1;
        log := [call_findUnique (where_id (Some uid))] |}).
Proof.
  intros Hid Hpw Hne Hu Hf0.
  unfold withdrawUser. exec. cbn [JS.truthy_opt_number negb].
  apply Z.eqb_neq in Hid. rewrite Hid, Hpw. cbn.
  rewrite (truthy_string_nonempty Hne). cbn.
  rewrite Hf0. cbn. rewrite Hu. reflexivity.
Qed.

(** X10. The lookup raises: the error is logged to the console and the
    generic form error is returned; nothing is compared or deleted. *)
Theorem withdrawUser_lookup_fails prev formData us uid f pw :
  uid <> 0%Z ->
  entry_toString (FormData_get formData "password") = Some pw ->
  pw <> "" ->
  f 0 = true ->
  withdrawUser prev formData (boot us (Some uid) f)
  = (Returned (result_formErrors ["회원 탈퇴 중 오류가 발생했습니다."]),
     {| users := us; session_id := Some uid; faults := f; calls := 1;
        log := [call_findUnique (where_id (Some uid));
                call_console_error "User withdrawal error:"] |}).
Proof.
  intros Hid Hpw Hne Hf0.
  unfold withdrawUser. exec. cbn [JS.truthy_opt_number negb].
  apply Z.eqb_neq in Hid. rewrite Hid, Hpw. cbn.
  rewrite (truthy_string_nonempty Hne). cbn.
  rewrite Hf0. reflexivity.
Qed.

(** ** One action after another *)

(** X11. After a successful password change, a withdrawal that presents the
    new password goes through, provided bcrypt accepts a password against
    its own hash: the row is gone and the session destroyed. *)
Theorem password_change_then_withdraw prev formData us uid f d u prev' f' :
  passwordUpdateSchema_safeParse (password_form_data formData) = Zod.success d ->
  find (matches (where_id (Some uid))) us = Some u ->
  violates_unique u us = false ->
  f 0 = false -> f 1 = false ->
  bcrypt_compareSync (currentPassword d) (user_password u) = true ->
  uid <> 0%Z ->
  newPassword d <> "" ->
  bcrypt_compareSync (newPassword d) (bcrypt_hashSync (newPassword d) 12) = true ->
  f' 0 = false -> f' 1 = false ->
  let rt1 := snd (updatePassword prev formData (boot us (Some uid) f)) in
  let run2 :=
    withdrawUser prev' [("password", EntryString (newPassword d))]
      (boot (users rt1) (session_id rt1) f') in
  fst run2 = Returned (result_message "회원 탈퇴가 완료되었습니다.")
  /\ find (matches (where_id (Some uid))) (users (snd run2)) = None
  /\ session_id (snd run2) = None.
Proof.
  intros Hok Hu Huniq Hf0 Hf1 Hcmp Hid Hne Hround Hg0 Hg1 rt1 run2. subst run2 rt1.
  rewrite (updatePassword_commits prev formData us (Some uid) f d u Hok Hu Huniq Hf0 Hf1 Hcmp).
  cbn [snd users session_id].
  set (u' := apply_update (password_update_data (bcrypt_hashSync (newPassword d) 12)) u).
  assert (Hu' : find (matches (where_id (Some uid))) (replace_user u' us) = Some u')
    by (now apply find_replace_user with (u := u)).
  pose proof Hu as Hi. apply find_matches_id in Hi. injection Hi as Hi.
  unfold withdrawUser. exec. cbn [JS.truthy_opt_number negb].
  apply Z.eqb_neq in Hid. rewrite Hid. cbn.
  rewrite (truthy_string_nonempty Hne). cbn.
  rewrite Hg0. cbn. rewrite Hu'. cbn.
  change (user_password u') with (bcrypt_hashSync (newPassword d) 12).
  rewrite Hround. cbn. rewrite Hg1. cbn. rewrite Hu'. cbn.
  split; [reflexivity|]. split; [|reflexivity].
  change (user_id u') with (user_id u). rewrite <- Hi. apply find_remove_user.
Qed.

(** ** [profileUpdateSchema] *)

Lemma profile_object_ok (data : ProfileInput) (v : ProfileData) :
  fst (profile_object data) = Zod.OK v -> snd (profile_object data) = [].
Proof.
  destruct data as [e u b]. unfold profile_object.
  destruct e, u, b; cbn;
    repeat match goal with
      | |- context [if ?c then _ else _] => destruct c; cbn
      end;
    intros E; try discriminate E; reflexivity.
Qed.

Lemma profile_validation_success_object (data : ProfileInput) (rt : Runtime) d :
  fst (profileUpdateSchema_safeParseAsync data rt) = Returned (Zod.success d) ->
  profile_object data = (Zod.OK d, []).
Proof.
  unfold profileUpdateSchema_safeParseAsync.
  pose proof (profile_object_ok data) as Hok.
  destruct (profile_object data) as [res issues]. cbn [fst snd] in Hok.
  destruct res as [|v|v]; exec.
  - cbn. intros E; discriminate E.
  - destruct (profile_superRefine v rt) as [[added|ex] rt1]; cbn;
      intros E; discriminate E.
  - destruct (profile_superRefine v rt) as [[added|ex] rt1]; cbn;
      [|intros E; discriminate E].
    destruct added; cbn; intros E; [|discriminate E].
    injection E as <-. now rewrite (Hok v eq_refl).
Qed.

(** X12. The format checks of [profileUpdateSchema] run before [trim]: the
    email pattern is tested on the email as typed, and the username is too
    short exactly when the username as typed is shorter than the minimum,
    whatever is left of it after trimming. The value keeps the trimmed
    username and the trimmed, lower-cased email. *)
Theorem profile_checks_see_raw_input (data : ProfileInput) (e s : string) :
  in_email data = JS.str e ->
  in_username data = JS.str s ->
  JS.isASCII s = true ->
  let issues := snd (profile_object data) in
  (In {| Zod.path := ["email"];
         Zod.issue_message := EMAIL_INVALID_FORMAT ACCOUNT_VALIDATION |} issues
   <-> emailRegex_test e = false)
  /\ (In {| Zod.path := ["username"];
            Zod.issue_message := USERNAME_TOO_SHORT ACCOUNT_VALIDATION |} issues
      <-> String.length s < MIN_LENGTH_USERNAME ACCOUNT_VALIDATION)
  /\ (forall v, fst (profile_object data) = Zod.OK v
                \/ fst (profile_object data) = Zod.DIRTY v ->
                email v = String_prototype_toLowerCase (String_prototype_trim e) /\ username v = String_prototype_trim s).
Proof.
  destruct data as [e0 u0 b]. cbn. intros -> -> _.
  unfold profile_object.
  destruct b; cbn;
    destruct (emailRegex_test e) eqn:Ee; cbn;
    destruct (String.length s <? MIN_LENGTH_USERNAME ACCOUNT_VALIDATION) eqn:Es; cbn;
    (apply Nat.ltb_lt in Es || apply Nat.ltb_ge in Es);
    (split; [|split]);
    try (split; [intros Hin; elim_in Hin; try reflexivity; try lia
                | intros Hlt; try discriminate Hlt; try lia; auto 6]);
    try (intros v [E|E]; try discriminate E; injection E as <-; split; reflexivity).
Qed.

(** ** [updateProfile] *)

Lemma updateProfile_outcome prev formData us sid f :
  let run := updateProfile prev formData (boot us sid f) in
  session_id (snd run) = sid
  /\ ((exists u d,
          fst run = Returned (result_message "프로필이 성공적으로 변경되었습니다.")
          /\ profile_object (profile_form_data formData) = (Zod.OK d, [])
          /\ find (matches (where_id sid)) us = Some u
          /\ violates_unique (apply_update (profile_update_data d) u) us = false
          /\ users (snd run) = replace_user (apply_update (profile_update_data d) u) us)
      \/ (users (snd run) = us
          /\ invalidations (log (snd run)) = []
          /\ forall r, fst run = Returned r -> message r = None)).
Proof.
  intros run. subst run. unfold updateProfile. exec.
  set (rt0 := {| users := us; session_id := sid; faults := f; calls := 0; log := [] |}).
  set (data := profile_form_data formData).
  destruct (profile_validation_run data rt0) as (R1 & R2 & R3 & (l & R4 & R5) & _).
  pose proof (profile_validation_success_object data rt0) as Hobj.
  destruct (profileUpdateSchema_safeParseAsync data rt0) as [[[d|err]|ex] rt1];
    cbn [fst snd] in *.
  2: { split; [exact R2|]. right. split; [exact R1|]. split.
       - rewrite R4. exact (lookups_no_invalidation R5).
       - intros r [= <-]. apply message_flatten. }
  2: { split; [exact R2|]. right. split; [exact R1|]. split.
       - rewrite R4. exact (lookups_no_invalidation R5).
       - intros r E. discriminate E. }
  specialize (Hobj d eq_refl).
  rewrite R1, R2, R3. subst rt0. cbn [users session_id faults calls log app] in *.
  assert (Hinv : invalidations (log rt1) = [])
    by (rewrite R4; exact (lookups_no_invalidation R5)).
  assert (Hfail : forall ev : list Event,
             invalidations ev = [] -> invalidations (log rt1 ++ ev) = []).
  { intros ev Hev. unfold invalidations in *. now rewrite filter_app, Hinv, Hev. }
  destruct (f (calls rt1)); cbn.
  { split; [reflexivity|]. right. split; [reflexivity|]. split.
    - rewrite <- app_assoc. now apply Hfail.
    - now intros r [= <-]. }
  destruct (find (matches (where_id sid)) us) as [u|] eqn:Hfind; cbn.
  2: { destruct (f (S (calls rt1))); cbn; rewrite ?Hfind; cbn;
       (split; [reflexivity|]); right; (split; [reflexivity|]); (split;
       [ rewrite <- !app_assoc; now apply Hfail | now intros r [= <-] ]). }
  destruct (f (S (calls rt1))); cbn.
  { split; [reflexivity|]. right. split; [reflexivity|]. split.
    - rewrite <- !app_assoc. now apply Hfail.
    - now intros r [= <-]. }
  rewrite Hfind; cbn.
  destruct (violates_unique (apply_update (profile_update_data d) u) us) eqn:Hv; cbn.
  { split; [reflexivity|]. right. split; [reflexivity|]. split.
    - rewrite <- !app_assoc. now apply Hfail.
    - now intros r [= <-]. }
  unfold JS.strict_eq_opt.
  destruct (String.eqb (username d) (user_username u)); cbn;
    [| destruct (JS.truthy_string (user_username u)); cbn ];
    (split; [reflexivity|]); left; exists u, d; repeat split; assumption.
Qed.

(** X13. After a successful [updateProfile] the actor's row holds the email
    of the form trimmed and in lower case, the username trimmed and the bio
    as a string; id and password are as before, the other rows are still
    there and the session stands. *)
Theorem updateProfile_stores prev formData us sid f r rt m :
  updateProfile prev formData (boot us sid f) = (Returned r, rt) ->
  message r = Some m ->
  exists u e s,
    find (matches (where_id sid)) us = Some u
    /\ FormData_get formData "email" = Some (EntryString e)
    /\ FormData_get formData "username" = Some (EntryString s)
    /\ find (matches (where_id sid)) (users rt)
       = Some {| user_id := user_id u;
                 user_email := String_prototype_toLowerCase (String_prototype_trim e);
                 user_username := String_prototype_trim s;
                 user_bio := Some (or_empty (entry_toString (FormData_get formData "bio")));
                 user_password := user_password u |}
    /\ (forall o, In o us -> user_id o <> user_id u -> In o (users rt))
    /\ session_id rt = sid.
Proof.
  intros Hrun Hm.
  destruct (updateProfile_outcome prev formData us sid f) as (Hs & [Hok | Hno]);
    rewrite Hrun in *; cbn [fst snd] in *.
  2: { destruct Hno as (_ & _ & Hn). rewrite (Hn r eq_refl) in Hm. discriminate Hm. }
  destruct Hok as (u & d & _ & Hobj & Hu & _ & Hus).
  pose proof (profile_object_value (profile_form_data formData)) as Hv.
  rewrite Hobj in Hv. cbn [fst] in Hv. destruct Hv as (He & Hn & Hb).
  unfold validated_email, validated_username, validated_bio in *.
  destruct (in_email (profile_form_data formData)) as [| |e|] eqn:Ee; try discriminate He.
  destruct (in_username (profile_form_data formData)) as [| |s|] eqn:Es;
    try discriminate Hn.
  injection He as He. injection Hn as Hn. cbn in Hb.
  exists u, e, s. split; [exact Hu|].
  split; [now apply entry_value_str|]. split; [now apply entry_value_str|].
  split; [|split; [|exact Hs]].
  - rewrite Hus.
    rewrite (@find_replace_user sid us u
               (apply_update (profile_update_data d) u) Hu eq_refl).
    unfold apply_update, profile_update_data. cbn. now rewrite Hb, He, Hn.
  - intros o Hin Hne. rewrite Hus. now apply replace_user_keeps_others.
Qed.

(** X14. Unless [updateProfile] returns the success message, whether it
    returns errors or throws, the table and the session are as they were and
    no invalidation signal was sent. *)
Theorem updateProfile_failure_changes_nothing prev formData us sid f :
  let run := updateProfile prev formData (boot us sid f) in
  fst run <> Returned (result_message "프로필이 성공적으로 변경되었습니다.") ->
  users (snd run) = us
  /\ session_id (snd run) = sid
  /\ invalidations (log (snd run)) = [].
Proof.
  intros run Hne. subst run.
  destruct (updateProfile_outcome prev formData us sid f) as (Hs & [Hok | Hno]).
  - destruct Hok as (u & d & E & _). contradiction.
  - destruct Hno as (Hu & Hi & _). now repeat split.
Qed.

(** X15. Once validation has succeeded [updateProfile] does not throw: it
    returns the success message, or the generic form error with the error
    logged to the console and the table unchanged. *)
Theorem updateProfile_after_validation prev formData us sid f d :
  fst (profileUpdateSchema_safeParseAsync (profile_form_data formData) (boot us sid f))
  = Returned (Zod.success d) ->
  let run := updateProfile prev formData (boot us sid f) in
  fst run = Returned (result_message "프로필이 성공적으로 변경되었습니다.")
  \/ (fst run = Returned (result_formErrors ["프로필 변경 중 오류가 발생했습니다."])
      /\ In (call_console_error "Profile update error:") (log (snd run))
      /\ users (snd run) = us).
Proof.
  intros Hok run. subst run. unfold updateProfile. exec. unfold boot in Hok.
  set (rt0 := {| users := us; session_id := sid; faults := f; calls := 0; log := [] |}) in *.
  destruct (profile_validation_run (profile_form_data formData) rt0)
    as (R1 & _ & _ & _ & _).
  destruct (profileUpdateSchema_safeParseAsync (profile_form_data formData) rt0)
    as [[[d0|err]|ex] rt1]; cbn [fst snd] in *; try discriminate Hok.
  rewrite R1. subst rt0. cbn [users] in *.
  repeat match goal with
    | |- context [find ?p ?l] => destruct (find p l); cbn
    | |- context [if ?c then _ else _] => destruct c; cbn
    end;
    first [ left; reflexivity
          | right; split; [reflexivity|]; split; [|reflexivity];
            rewrite ?in_app_iff; cbn; tauto ].
Qed.

(** X16. A profile form without email or without username is rejected with
    the invalid-type message under the missing field before any datastore
    lookup: the runtime is untouched. *)
Theorem updateProfile_absent_field prev formData rt :
  (FormData_get formData "email" = None \/ FormData_get formData "username" = None) ->
  exists r fe,
    updateProfile prev formData rt = (Returned r, rt)
    /\ fieldErrors r = Some fe
    /\ (FormData_get formData "email" = None ->
        In ("email", [EMAIL_INVALID_TYPE ACCOUNT_VALIDATION]) fe)
    /\ (FormData_get formData "username" = None ->
        In ("username", [USERNAME_INVALID_TYPE ACCOUNT_VALIDATION]) fe).
Proof.
  intros Habsent.
  unfold updateProfile, profileUpdateSchema_safeParseAsync. exec.
  unfold profile_object, profile_form_data.
  destruct (FormData_get formData "email") as [[e|e]|];
    destruct (FormData_get formData "username") as [[s|s]|];
    try (exfalso; destruct Habsent as [E|E]; discriminate E);
    cbn;
    repeat match goal with
      | |- context [if ?b then _ else _] => destruct b; cbn
      end;
    do 2 eexists; (split; [reflexivity|]); (split; [reflexivity|]);
    split; intros E; try discriminate E; cbn; auto 6.
Qed.

Ltac pick_field :=
  cbn; first [ left; reflexivity | right; left; reflexivity
             | right; right; left; reflexivity ].

(** X17. A username that differs from the actor's and that another row holds
    is reported as a duplicate under the field [username]; nothing is
    updated. *)
Theorem updateProfile_duplicate_username prev formData us sid f u o e s :
  find (matches (where_id sid)) us = Some u ->
  FormData_get formData "email" = Some (EntryString e) ->
  FormData_get formData "username" = Some (EntryString s) ->
  String_prototype_trim s <> user_username u ->
  find (matches (where_username (String_prototype_trim s))) us = Some o ->
  (forall n, n < 3 -> f n = false) ->
  let run := updateProfile prev formData (boot us sid f) in
  exists r fe msgs,
    fst run = Returned r
    /\ message r = None
    /\ fieldErrors r = Some fe
    /\ In ("username", msgs) fe
    /\ In (USERNAME_DUPLICATE ACCOUNT_VALIDATION) msgs
    /\ users (snd run) = us
    /\ filter is_mutation (log (snd run)) = [].
Proof.
  intros Hu He Hs Hne Ho Hf run. subst run.
  pose proof (Hf 0 ltac:(lia)) as Hf0.
  pose proof (Hf 1 ltac:(lia)) as Hf1.
  pose proof (Hf 2 ltac:(lia)) as Hf2.
  unfold updateProfile, profileUpdateSchema_safeParseAsync, profile_object,
    profile_form_data, profile_superRefine.
  rewrite He, Hs. exec. cbn.
  apply String.eqb_neq in Hne.
  repeat match goal with
    | |- context [if negb (emailRegex_test ?x) then _ else _] =>
        destruct (emailRegex_test x); cbn
    | |- context [if (?a <? ?b) then _ else _] => destruct (a <? b); cbn
    end;
    rewrite ?Hf0; cbn; rewrite ?Hu; cbn; unfold JS.strict_eq_opt; rewrite ?Hne; cbn;
    rewrite ?Hf1; cbn; rewrite ?Ho; cbn;
    repeat match goal with
      | |- context [if String.eqb ?a ?b then _ else _] => destruct (String.eqb a b); cbn
      | |- context [if negb (String.eqb ?a ?b) then _ else _] =>
          destruct (String.eqb a b); cbn
      end;
    rewrite ?Hf2; cbn;
    repeat match goal with
      | |- context [find ?p ?l] => destruct (find p l); cbn
      end;
    do 3 eexists; (split; [reflexivity|]); (split; [reflexivity|]);
    (split; [reflexivity|]); (split; [pick_field|]); (split; [cbn; auto 6|]);
    split; reflexivity.
Qed.

(** X18. An email that, trimmed and in lower case, differs from the actor's
    and that another row holds is reported as a duplicate under the field
    [email]; nothing is updated. *)
Theorem updateProfile_duplicate_email prev formData us sid f u o e s :
  find (matches (where_id sid)) us = Some u ->
  FormData_get formData "email" = Some (EntryString e) ->
  FormData_get formData "username" = Some (EntryString s) ->
  String_prototype_toLowerCase (String_prototype_trim e) <> user_email u ->
  find (matches (where_email (String_prototype_toLowerCase (String_prototype_trim e)))) us
  = Some o ->
  (forall n, n < 3 -> f n = false) ->
  let run := updateProfile prev formData (boot us sid f) in
  exists r fe msgs,
    fst run = Returned r
    /\ message r = None
    /\ fieldErrors r = Some fe
    /\ In ("email", msgs) fe
    /\ In (EMAIL_DUPLICATE ACCOUNT_VALIDATION) msgs
    /\ users (snd run) = us
    /\ filter is_mutation (log (snd run)) = [].
Proof.
  intros Hu He Hs Hne Ho Hf run. subst run.
  pose proof (Hf 0 ltac:(lia)) as Hf0.
  pose proof (Hf 1 ltac:(lia)) as Hf1.
  pose proof (Hf 2 ltac:(lia)) as Hf2.
  unfold updateProfile, profileUpdateSchema_safeParseAsync, profile_object,
    profile_form_data, profile_superRefine.
  rewrite He, Hs. exec. cbn.
  apply String.eqb_neq in Hne.
  repeat match goal with
    | |- context [if negb (emailRegex_test ?x) then _ else _] =>
        destruct (emailRegex_test x); cbn
    | |- context [if (?a <? ?b) then _ else _] => destruct (a <? b); cbn
    end;
    rewrite ?Hf0; cbn; rewrite ?Hu; cbn; unfold JS.strict_eq_opt; rewrite ?Hne; cbn;
    (destruct (String.eqb (String_prototype_trim s) (user_username u)); cbn);
    rewrite ?Hf1; cbn; rewrite ?Ho; cbn;
    repeat match goal with
      | |- context [match find ?p ?l with _ => _ end] =>
          destruct (find p l); cbn; rewrite ?Hf2; cbn; rewrite ?Ho; cbn
      end;
    rewrite ?Hf2; cbn; rewrite ?Ho; cbn;
    do 3 eexists; (split; [reflexivity|]); (split; [reflexivity|]);
    (split; [reflexivity|]); (split; [pick_field|]); (split; [cbn; auto 6|]);
    split; reflexivity.
Qed.

Lemma replace_user_twice (u' : User) (us : list User) :
  replace_user u' (replace_user u' us) = replace_user u' us.
Proof.
  unfold replace_user. rewrite map_map. apply map_ext. intros o.
  destruct (user_id o =? user_id u')%Z eqn:E; [now rewrite Z.eqb_refl | now rewrite E].
Qed.

Lemma violates_unique_replace (u' : User) (us : list User) :
  violates_unique u' (replace_user u' us) = violates_unique u' us.
Proof.
  unfold violates_unique, replace_user.
  induction us as [|o us IH]; [reflexivity|].
  cbn. rewrite IH. f_equal.
  destruct (user_id o =? user_id u')%Z eqn:E; [|now rewrite E].
  now rewrite Z.eqb_refl.
Qed.

Lemma apply_update_profile_twice (d : ProfileData) (u : User) :
  apply_update (profile_update_data d) (apply_update (profile_update_data d) u)
  = apply_update (profile_update_data d) u.
Proof. unfold apply_update, profile_update_data. cbn. now destruct (bio d). Qed.

(** X19. Sending the same form again after a successful update succeeds
    again and changes nothing: no uniqueness lookup is made, the table stays
    as it is and the tag is the only invalidation signal. *)
Theorem updateProfile_resubmission prev formData us sid f r rt m prev' f' :
  updateProfile prev formData (boot us sid f) = (Returned r, rt) ->
  message r = Some m ->
  (forall n, n < 3 -> f' n = false) ->
  let run2 := updateProfile prev' formData (boot (users rt) (session_id rt) f') in
  fst run2 = Returned (result_message "프로필이 성공적으로 변경되었습니다.")
  /\ users (snd run2) = users rt
  /\ exists d0,
       log (snd run2)
       = [call_findUnique (where_id sid); call_findUnique (where_id sid);
          call_update (where_id sid) d0; call_revalidateTag "user-profile"].
Proof.
  intros Hrun Hm Hf run2. subst run2.
  pose proof (Hf 0 ltac:(lia)) as Hf0.
  pose proof (Hf 1 ltac:(lia)) as Hf1.
  pose proof (Hf 2 ltac:(lia)) as Hf2.
  destruct (updateProfile_outcome prev formData us sid f) as (Hs & [Hok | Hno]);
    rewrite Hrun in *; cbn [fst snd] in *.
  2: { destruct Hno as (_ & _ & Hn). rewrite (Hn r eq_refl) in Hm. discriminate Hm. }
  destruct Hok as (u & d & _ & Hobj & Hu & Hv & Hus).
  rewrite Hus, Hs.
  set (u' := apply_update (profile_update_data d) u) in *.
  assert (Hu' : find (matches (where_id sid)) (replace_user u' us) = Some u')
    by (now apply find_replace_user with (u := u)).
  unfold updateProfile, profileUpdateSchema_safeParseAsync. rewrite Hobj.
  unfold profile_superRefine. exec.
  rewrite Hf0. cbn. rewrite Hu'. cbn.
  unfold JS.strict_eq_opt.
  change (user_username u') with (username d).
  change (user_email u') with (email d).
  rewrite !String.eqb_refl. cbn.
  rewrite Hf1. cbn. rewrite Hu'. cbn. rewrite Hf2. cbn. rewrite Hu'. cbn.
  subst u'. rewrite apply_update_profile_twice, violates_unique_replace, Hv. cbn.
  rewrite String.eqb_refl. cbn.
  rewrite replace_user_twice.
  split; [reflexivity|]. split; [reflexivity|]. eexists. reflexivity.
Qed.
End Behaviour.

(* ================================================================== *)
(** * The further behaviour at concrete inputs *)
(* ================================================================== *)

Lemma updatePassword_success_witness :
  fst (@updatePassword Fixture.imports Fixture.idle
         (Fixture.password_form "hunter22" "abcdefg1" "abcdefg1")
         (boot Fixture.table (Some 2%Z) Fixture.no_fault))
  = Returned (result_message "비밀번호가 성공적으로 변경되었습니다.").
Proof.
  pose proof (@updatePassword_success Fixture.imports Fixture.idle
                (Fixture.password_form "hunter22" "abcdefg1" "abcdefg1")
                Fixture.table (Some 2%Z) Fixture.no_fault
                {| currentPassword := "hunter22"; newPassword := "abcdefg1";
                   confirmPassword := "abcdefg1" |}
                Fixture.bob) as P.
  cbv zeta in P. apply P; vm_compute; reflexivity.
Defined.

Lemma updatePassword_update_fails_witness :
  fst (@updatePassword Fixture.imports Fixture.idle
         (Fixture.password_form "hunter22" "abcdefg1" "abcdefg1")
         (boot Fixture.table (Some 2%Z) (Fixture.fault_at 1)))
  = Returned (result_formErrors ["비밀번호 변경 중 오류가 발생했습니다."]).
Proof.
  pose proof (@updatePassword_update_fails Fixture.imports Fixture.idle
                (Fixture.password_form "hunter22" "abcdefg1" "abcdefg1")
                Fixture.table (Some 2%Z) (Fixture.fault_at 1)
                {| currentPassword := "hunter22"; newPassword := "abcdefg1";
                   confirmPassword := "abcdefg1" |}
                Fixture.bob) as P.
  cbv zeta in P. apply P; vm_compute; reflexivity.
Defined.

Lemma updatePassword_footprint_witness :
  exists n,
    FormData_get (Fixture.password_form "hunter22" "abcdefg1" "abcdefg1") "newPassword"
    = Some (EntryString n)
    /\ password_update_data "$2b$abcdefg1"
       = password_update_data (@bcrypt_hashSync Fixture.imports n 12).
Proof.
  pose proof (@updatePassword_footprint Fixture.imports Fixture.idle
                (Fixture.password_form "hunter22" "abcdefg1" "abcdefg1")
                Fixture.table (Some 2%Z) Fixture.no_fault) as P.
  cbv zeta in P. destruct P as (P & _).
  apply (P (where_id (Some 2%Z)) (password_update_data "$2b$abcdefg1")).
  vm_compute. tauto.
Defined.

Lemma updatePassword_no_digit_witness :
  exists r,
    @updatePassword Fixture.imports Fixture.idle
      (Fixture.password_form "hunter22" "abcdefgh" "abcdefgh")
      (boot Fixture.table (Some 2%Z) Fixture.no_fault)
    = (Returned r, boot Fixture.table (Some 2%Z) Fixture.no_fault)
    /\ message r = None.
Proof.
  destruct (@updatePassword_no_digit Fixture.imports Fixture.idle
              (Fixture.password_form "hunter22" "abcdefgh" "abcdefgh")
              (boot Fixture.table (Some 2%Z) Fixture.no_fault) "abcdefgh"
              eq_refl eq_refl)
    as (r & fe & msgs & Hrun & Hm & _).
  exists r. split; assumption.
Defined.


Lemma updatePassword_absent_field_witness :
  exists fe, In ("newPassword", ["password: not a string"]) fe.
Proof.
  destruct (@updatePassword_absent_field Fixture.imports Fixture.idle
              [("currentPassword", EntryString "hunter22")]
              (boot Fixture.table (Some 2%Z) Fixture.no_fault))
    as (r & fe & _ & _ & _ & Hn & _).
  - right. left. reflexivity.
  - exists fe. apply Hn. reflexivity.
Defined.

Lemma withdrawUser_wrong_password_witness :
  fst (@withdrawUser Fixture.imports Fixture.idle [("password", EntryString "guess")]
         (boot Fixture.table (Some 2%Z) Fixture.no_fault))
  = Returned (result_fieldErrors "password" ["비밀번호가 일치하지 않습니다."]).
Proof.
  rewrite (@withdrawUser_wrong_password Fixture.imports Fixture.idle
             [("password", EntryString "guess")] Fixture.table 2%Z Fixture.no_fault
             Fixture.bob "guess");
    try reflexivity; discriminate.
Defined.

Lemma withdrawUser_user_not_found_witness :
  fst (@withdrawUser Fixture.imports Fixture.idle [("password", EntryString "hunter22")]
         (boot Fixture.table (Some 7%Z) Fixture.no_fault))
  = Returned (result_formErrors ["사용자를 찾을 수 없습니다."]).
Proof.
  rewrite (@withdrawUser_user_not_found Fixture.imports Fixture.idle
             [("password", EntryString "hunter22")] Fixture.table 7%Z Fixture.no_fault
             "hunter22");
    try reflexivity; discriminate.
Defined.

Lemma withdrawUser_lookup_fails_witness :
  fst (@withdrawUser Fixture.imports Fixture.idle [("password", EntryString "hunter22")]
         (boot Fixture.table (Some 2%Z) (Fixture.fault_at 0)))
  = Returned (result_formErrors ["회원 탈퇴 중 오류가 발생했습니다."]).
Proof.
  rewrite (@withdrawUser_lookup_fails Fixture.imports Fixture.idle
             [("password", EntryString "hunter22")] Fixture.table 2%Z
             (Fixture.fault_at 0) "hunter22");
    try reflexivity; discriminate.
Defined.

Lemma password_change_then_withdraw_witness :
  fst (@withdrawUser Fixture.imports Fixture.idle [("password", EntryString "abcdefg1")]
         (boot
            (users (snd (@updatePassword Fixture.imports Fixture.idle
                           (Fixture.password_form "hunter22" "abcdefg1" "abcdefg1")
                           (boot Fixture.table (Some 2%Z) Fixture.no_fault))))
            (session_id (snd (@updatePassword Fixture.imports Fixture.idle
                                (Fixture.password_form "hunter22" "abcdefg1" "abcdefg1")
                                (boot Fixture.table (Some 2%Z) Fixture.no_fault))))
            Fixture.no_fault))
  = Returned (result_message "회원 탈퇴가 완료되었습니다.").
Proof.
  pose proof (@password_change_then_withdraw Fixture.imports Fixture.idle
                (Fixture.password_form "hunter22" "abcdefg1" "abcdefg1")
                Fixture.table 2%Z Fixture.no_fault
                {| currentPassword := "hunter22"; newPassword := "abcdefg1";
                   confirmPassword := "abcdefg1" |}
                Fixture.bob Fixture.idle Fixture.no_fault) as P.
  cbv zeta in P. apply P; try (vm_compute; reflexivity); discriminate.
Defined.

Lemma profile_checks_see_raw_input_witness :
  ~ In {| Zod.path := ["username"]; Zod.issue_message := "username: too short" |}
       (snd (@profile_object Fixture.imports
               {| in_email := JS.str "bob@x.com"; in_username := JS.str "     ";
                  in_bio := JS.str "" |})).
Proof.
  pose proof (@profile_checks_see_raw_input Fixture.imports
                {| in_email := JS.str "bob@x.com"; in_username := JS.str "     ";
                   in_bio := JS.str "" |}
                "bob@x.com" "     " eq_refl eq_refl eq_refl) as P.
  cbv zeta in P. destruct P as (_ & P & _).
  intros Hin. apply P in Hin. vm_compute in Hin. lia.
Defined.

Lemma updateProfile_stores_witness :
  option_map user_username
    (find (matches (where_id (Some 2%Z)))
       (users (snd (@updateProfile Fixture.imports Fixture.idle
                      (Fixture.profile_form " Bob@X.com " " bobby " "hi")
                      (boot Fixture.table (Some 2%Z) Fixture.no_fault)))))
  = Some "bobby".
Proof.
  assert (Hrun : @updateProfile Fixture.imports Fixture.idle
                   (Fixture.profile_form " Bob@X.com " " bobby " "hi")
                   (boot Fixture.table (Some 2%Z) Fixture.no_fault)
                 = (Returned (result_message "프로필이 성공적으로 변경되었습니다."),
                    snd (@updateProfile Fixture.imports Fixture.idle
                           (Fixture.profile_form " Bob@X.com " " bobby " "hi")
                           (boot Fixture.table (Some 2%Z) Fixture.no_fault))))
    by (vm_compute; reflexivity).
  destruct (@updateProfile_stores Fixture.imports Fixture.idle
              (Fixture.profile_form " Bob@X.com " " bobby " "hi")
              Fixture.table (Some 2%Z) Fixture.no_fault _ _
              "프로필이 성공적으로 변경되었습니다." Hrun eq_refl)
    as (u & e & s & _ & _ & Hs & Hfind & _).
  rewrite Hfind. vm_compute in Hs. injection Hs as <-. reflexivity.
Defined.

Lemma updateProfile_failure_changes_nothing_witness :
  users (snd (@updateProfile Fixture.imports Fixture.idle
                (Fixture.profile_form "alice@x.com" "bob" "")
                (boot Fixture.table (Some 2%Z) Fixture.no_fault)))
  = Fixture.table.
Proof.
  pose proof (@updateProfile_failure_changes_nothing Fixture.imports Fixture.idle
                (Fixture.profile_form "alice@x.com" "bob" "")
                Fixture.table (Some 2%Z) Fixture.no_fault) as P.
  cbv zeta in P. apply P. vm_compute. discriminate.
Defined.

Lemma updateProfile_after_validation_witness :
  fst (@updateProfile Fixture.imports Fixture.idle
         (Fixture.profile_form "bob@x.com" "bob" "")
         (boot Fixture.table (Some 2%Z) (Fixture.fault_at 2)))
  = Returned (result_formErrors ["프로필 변경 중 오류가 발생했습니다."]).
Proof.
  destruct (@updateProfile_after_validation Fixture.imports Fixture.idle
              (Fixture.profile_form "bob@x.com" "bob" "")
              Fixture.table (Some 2%Z) (Fixture.fault_at 2)
              {| email := "bob@x.com"; username := "bob"; bio := Some "" |})
    as [Hok | (Hfail & _)].
  - vm_compute. reflexivity.
  - vm_compute in Hok. discriminate Hok.
  - exact Hfail.
Defined.

Lemma updateProfile_absent_field_witness :
  exists fe, In ("email", ["email: not a string"]) fe.
Proof.
  destruct (@updateProfile_absent_field Fixture.imports Fixture.idle
              [("username", EntryString "bob")]
              (boot Fixture.table (Some 2%Z) Fixture.no_fault))
    as (r & fe & _ & _ & He & _).
  - left. reflexivity.
  - exists fe. apply He. reflexivity.
Defined.

Lemma updateProfile_duplicate_username_witness :
  exists r,
    fst (@updateProfile Fixture.imports Fixture.idle
           (Fixture.profile_form "bob@x.com" "alice" "")
           (boot Fixture.table (Some 2%Z) Fixture.no_fault))
    = Returned r
    /\ message r = None.
Proof.
  destruct (@updateProfile_duplicate_username Fixture.imports Fixture.idle
              (Fixture.profile_form "bob@x.com" "alice" "")
              Fixture.table (Some 2%Z) Fixture.no_fault
              Fixture.bob Fixture.alice "bob@x.com" "alice"
              ltac:(vm_compute; reflexivity) ltac:(vm_compute; reflexivity)
              ltac:(vm_compute; reflexivity) ltac:(vm_compute; discriminate)
              ltac:(vm_compute; reflexivity) ltac:(intros n _; reflexivity))
    as (r & fe & msgs & Hr & Hm & _).
  exists r. split; assumption.
Defined.

Lemma updateProfile_duplicate_email_witness :
  exists r,
    fst (@updateProfile Fixture.imports Fixture.idle
           (Fixture.profile_form "Alice@X.com" "bob" "")
           (boot Fixture.table (Some 2%Z) Fixture.no_fault))
    = Returned r
    /\ message r = None.
Proof.
  destruct (@updateProfile_duplicate_email Fixture.imports Fixture.idle
              (Fixture.profile_form "Alice@X.com" "bob" "")
              Fixture.table (Some 2%Z) Fixture.no_fault
              Fixture.bob Fixture.alice "Alice@X.com" "bob"
              ltac:(vm_compute; reflexivity) ltac:(vm_compute; reflexivity)
              ltac:(vm_compute; reflexivity) ltac:(vm_compute; discriminate)
              ltac:(vm_compute; reflexivity) ltac:(intros n _; reflexivity))
    as (r & fe & msgs & Hr & Hm & _).
  exists r. split; assumption.
Defined.

Lemma updateProfile_resubmission_witness :
  fst (@updateProfile Fixture.imports Fixture.idle
         (Fixture.profile_form "bob@x.com" "robert" "x")
         (boot
            (users (snd (@updateProfile Fixture.imports Fixture.idle
                           (Fixture.profile_form "bob@x.com" "robert" "x")
                           (boot Fixture.table (Some 2%Z) Fixture.no_fault))))
            (session_id (snd (@updateProfile Fixture.imports Fixture.idle
                                (Fixture.profile_form "bob@x.com" "robert" "x")
                                (boot Fixture.table (Some 2%Z) Fixture.no_fault))))
            Fixture.no_fault))
  = Returned (result_message "프로필이 성공적으로 변경되었습니다.").
Proof.
  pose proof (@updateProfile_resubmission Fixture.imports Fixture.idle
                (Fixture.profile_form "bob@x.com" "robert" "x")
                Fixture.table (Some 2%Z) Fixture.no_fault
                (result_message "프로필이 성공적으로 변경되었습니다.")
                (snd (@updateProfile Fixture.imports Fixture.idle
                        (Fixture.profile_form "bob@x.com" "robert" "x")
                        (boot Fixture.table (Some 2%Z) Fixture.no_fault)))
                "프로필이 성공적으로 변경되었습니다." Fixture.idle Fixture.no_fault) as P.
  cbv zeta in P. apply P; vm_compute; reflexivity.
Defined.
